(** * Strategy dispatch of [sqlalchemy.orm.interfaces]

    A shallow embedding of the strategy registry, the per-property strategy
    cache and the option protocol of [lib/sqlalchemy/orm/interfaces.py],
    with the properties of the dispatch protocol proved over it.

    Python objects that are mutated in place and compared by identity (the
    [LoaderStrategy] instances) live in a heap indexed by address; the
    property the methods run on is the [self] component of the state.
    Dictionaries are insertion ordered association lists, as in CPython.
    A raised exception leaves every mutation made before it in place. *)

From Stdlib Require Import String.
From stdpp Require Import base tactics option list sorting strings gmap.

(** ** Python values and dictionaries *)

(** The values that occur in strategy keys and keyword arguments:
    [None], booleans and strings ([lazy="select"], [deferred=True], ...). *)
Inductive pyvalue :=
  | VNone
  | VBool (b : bool)
  | VStr (s : string).

#[global] Instance pyvalue_eq_dec : EqDecision pyvalue.
Proof. solve_decision. Defined.

Section pydict.
Context {K V : Type} `{EqDecision K}.

(** [d[k]], with [None] for [KeyError]; [k in d] is [is_Some]. *)
Fixpoint dict_get (d : list (K * V)) (k : K) : option V :=
  match d with
  | [] => None
  | (k', v) :: d' => if decide (k = k') then Some v else dict_get d' k
  end.

Definition dict_contains (d : list (K * V)) (k : K) : bool :=
  match dict_get d k with Some _ => true | None => false end.

(** [d[k] = v]: an existing key keeps its position, a new one goes last. *)
Fixpoint dict_set (d : list (K * V)) (k : K) (v : V) : list (K * V) :=
  match d with
  | [] => [(k, v)]
  | (k', v') :: d' =>
      if decide (k = k') then (k', v) :: d' else (k', v') :: dict_set d' k v
  end.

(** [dict(pairs)]: the pairs are stored from left to right. *)
Definition dict_of_pairs (l : list (K * V)) : list (K * V) :=
  foldl (fun d kv => dict_set d kv.1 kv.2) [] l.
End pydict.

Abbreviation pydict K V := (list (K * V)).

(** ** Strategy keys *)

(** A strategy key is a tuple of (name, value) pairs. *)
Definition StrategyKey := list (string * pyvalue).

(** Tuples are compared on their first differing component.  The items of a
    keyword dictionary have pairwise distinct names, so the comparison is
    decided by the names, which Python orders by code point. *)
Definition item_le (a b : string * pyvalue) : Prop := String.leb a.1 b.1 = true.

#[global] Instance item_le_dec : RelDecision item_le.
Proof. intros a b. unfold item_le. apply _. Defined.

(** [tuple(sorted(kw.items()))] *)
Definition sorted_items (kw : pydict string pyvalue) : StrategyKey :=
  merge_sort item_le kw.

(** ** Classes *)

(** Class objects are identified by their name. *)
Definition pyclass := string.

(** The class of a property, with the classes that follow it in its method
    resolution order. *)
Record PropertyClass := {
  cls_name : pyclass;
  cls_ancestors : list pyclass;
}.

(** [cls.__mro__] starts with [cls] itself. *)
Definition __mro__ (cls : PropertyClass) : list pyclass :=
  cls_name cls :: cls_ancestors cls.

(** ** Collaborators *)

(** Objects handed through to the strategies untouched (query entity,
    adapter, result, populators). *)
Definition handle := nat.

Record ClassManager := {
  _attr_has_impl : string -> bool;
}.

Record Mapper := {
  mapper_id : nat;
  non_primary : bool;
  class_manager : ClassManager;
}.

(** Keys of [context.attributes]: a marker and a path tuple whose elements
    are entities, attributes or tokens. *)
Inductive path_elem :=
  | PEntity (n : nat)
  | PAttr (n : nat)
  | PToken (s : string).

#[global] Instance path_elem_eq_dec : EqDecision path_elem.
Proof. solve_decision. Defined.

Definition path_key := (string * list path_elem)%type.

(** The load option found in the compile context.  [load_strategy] is the
    option's [strategy] attribute: [None] or a strategy key. *)
Record Load := {
  load_id : nat;
  load_strategy : option StrategyKey;
  local_opts : pydict string pyvalue;
}.

Record QueryContext := {
  context_id : nat;
  attributes : pydict path_key Load;
}.

(** [path[prop]], with the three lookup keys it offers. *)
Record PropRegistry := {
  _loader_key : path_key;
  _wildcard_path_loader_key : path_key;
  _default_path_loader_key : path_key;
}.

(** A path is indexed by the identity of a property. *)
Record PathRegistry := {
  path_id : nat;
  path_getitem : nat -> PropRegistry;
}.

(** ** Objects of this module *)

Definition addr := nat.

(** Slots of [MapperProperty] and [StrategizedProperty].  A slot that was
    never assigned is [None]; reading it raises [AttributeError].
    [strategy_key] is assigned by the constructor of the concrete subclass. *)
Record StrategizedProperty := {
  prop_id : nat;
  prop_class : PropertyClass;
  _configure_started : bool;
  _configure_finished : bool;
  parent : option Mapper;
  key : option string;
  strategy_key : StrategyKey;
  _strategies : option (pydict StrategyKey addr);
  strategy : option addr;
}.

(** Slots of [LoaderStrategy], with the class the instance was made from. *)
Record LoaderStrategy := {
  strategy_class : pyclass;
  parent_property : nat;
  is_class_level : bool;
  ls_parent : Mapper;
  ls_key : string;
  ls_strategy_key : StrategyKey;
  strategy_opts : pydict string pyvalue;
}.

(** ** Exceptions and results *)

Inductive exn :=
  | AttributeError (name : string)
  | LoaderStrategyException
      (applied_to_property_type : pyclass)
      (requesting_property : nat)
      (applies_to : option pyclass)
      (actual_strategy_type : option pyclass)
      (key : StrategyKey).

Inductive result (A : Type) :=
  | Ok (a : A)
  | Raise (e : exn).
Arguments Ok {A} a.
Arguments Raise {A} e.

(** ** State *)

(** Calls received by strategy instances.  The bodies of these methods are
    empty in [LoaderStrategy] and supplied by its subclasses; the call
    itself is what the dispatch protocol decides. *)
Inductive Call :=
  | init_class_attribute_call (strat : addr) (mapper : Mapper)
  | setup_query_call (strat : addr) (compile_state : QueryContext)
      (query_entity : handle) (path : PathRegistry) (loadopt : option Load)
      (adapter : handle) (kwargs : pydict string pyvalue)
  | create_row_processor_call (strat : addr) (context : QueryContext)
      (query_entity : handle) (path : PathRegistry) (loadopt : option Load)
      (mapper : Mapper) (res : handle) (adapter : handle) (populators : handle).

Record State := {
  self : StrategizedProperty;
  heap : gmap addr LoaderStrategy;
  (** [StrategizedProperty._all_strategies], a [defaultdict(dict)] *)
  _all_strategies : pydict pyclass (pydict StrategyKey pyclass);
  (** [_strategy_keys] of each strategy class that has one *)
  _strategy_keys : pydict pyclass (list StrategyKey);
  calls : list Call;
}.

Definition set_self (f : StrategizedProperty -> StrategizedProperty) (s : State) : State :=
  {| self := f (self s); heap := heap s; _all_strategies := _all_strategies s;
     _strategy_keys := _strategy_keys s; calls := calls s |}.

Definition set_heap (h : gmap addr LoaderStrategy) (s : State) : State :=
  {| self := self s; heap := h; _all_strategies := _all_strategies s;
     _strategy_keys := _strategy_keys s; calls := calls s |}.

Definition set_registry (r : pydict pyclass (pydict StrategyKey pyclass))
    (k : pydict pyclass (list StrategyKey)) (s : State) : State :=
  {| self := self s; heap := heap s; _all_strategies := r;
     _strategy_keys := k; calls := calls s |}.

Definition add_call (c : Call) (s : State) : State :=
  {| self := self s; heap := heap s; _all_strategies := _all_strategies s;
     _strategy_keys := _strategy_keys s; calls := (calls s ++ [c])%list |}.

Definition with_configure_started (b : bool) (p : StrategizedProperty) :=
  {| prop_id := prop_id p; prop_class := prop_class p;
     _configure_started := b; _configure_finished := _configure_finished p;
     parent := parent p; key := key p; strategy_key := strategy_key p;
     _strategies := _strategies p; strategy := strategy p |}.

Definition with_configure_finished (b : bool) (p : StrategizedProperty) :=
  {| prop_id := prop_id p; prop_class := prop_class p;
     _configure_started := _configure_started p; _configure_finished := b;
     parent := parent p; key := key p; strategy_key := strategy_key p;
     _strategies := _strategies p; strategy := strategy p |}.

Definition with_parent (m : Mapper) (p : StrategizedProperty) :=
  {| prop_id := prop_id p; prop_class := prop_class p;
     _configure_started := _configure_started p;
     _configure_finished := _configure_finished p;
     parent := Some m; key := key p; strategy_key := strategy_key p;
     _strategies := _strategies p; strategy := strategy p |}.

Definition with_strategies (d : pydict StrategyKey addr) (p : StrategizedProperty) :=
  {| prop_id := prop_id p; prop_class := prop_class p;
     _configure_started := _configure_started p;
     _configure_finished := _configure_finished p;
     parent := parent p; key := key p; strategy_key := strategy_key p;
     _strategies := Some d; strategy := strategy p |}.

Definition with_strategy (a : addr) (p : StrategizedProperty) :=
  {| prop_id := prop_id p; prop_class := prop_class p;
     _configure_started := _configure_started p;
     _configure_finished := _configure_finished p;
     parent := parent p; key := key p; strategy_key := strategy_key p;
     _strategies := _strategies p; strategy := Some a |}.

(** ** The monad of methods: state and exceptions *)

Definition M (A : Type) : Type := State -> result A * State.

Definition ret {A} (a : A) : M A := fun s => (Ok a, s).

Definition bind {A B} (m : M A) (f : A -> M B) : M B :=
  fun s =>
    match m s with
    | (Ok a, s') => f a s'
    | (Raise e, s') => (Raise e, s')
    end.

Definition raise {A} (e : exn) : M A := fun s => (Raise e, s).

Definition gets {A} (f : State -> A) : M A := fun s => (Ok (f s), s).

Definition modify (f : State -> State) : M unit := fun s => (Ok tt, f s).

(** Reading a slot of [self]. *)
Definition getattr {A} (name : string) (slot : StrategizedProperty -> option A) : M A :=
  fun s =>
    match slot (self s) with
    | Some a => (Ok a, s)
    | None => (Raise (AttributeError name), s)
    end.

Definition lift {A} (r : result A) : M A := fun s => (r, s).

Notation "'let*' x ':=' m 'in' k" := (bind m (fun x => k))
  (at level 10, x name, m at level 100, k at level 200, only parsing).

(** ** [LoaderStrategy] *)

Module LoaderStrategy.

(** [__init__(self, parent, strategy_key)], for an instance of class
    [cls].  The owning property must have its [parent] and [key]. *)
Definition __init__ (cls : pyclass) (parent_prop : StrategizedProperty)
    (strategy_key : StrategyKey) : result LoaderStrategy :=
  match parent parent_prop with
  | None => Raise (AttributeError "parent")
  | Some p =>
      match key parent_prop with
      | None => Raise (AttributeError "key")
      | Some k =>
          Ok {| strategy_class := cls;
                parent_property := prop_id parent_prop;
                is_class_level := false;
                ls_parent := p;
                ls_key := k;
                ls_strategy_key := strategy_key;
                strategy_opts := dict_of_pairs strategy_key |}
      end
  end.

(** [cls(parent, strategy_key)]: a new object at an address no live
    object has, initialised by [__init__]. *)
Definition new (cls : pyclass) (strategy_key : StrategyKey) : M addr :=
  let* p := gets self in
  let* inst := lift (__init__ cls p strategy_key) in
  let* h := gets heap in
  let a := fresh (dom h) in
  let* _ := modify (set_heap (<[a := inst]> h)) in
  ret a.

(** The three methods below have no body of their own in [LoaderStrategy];
    a call of one on the instance at [strat] is put on record. *)
Definition init_class_attribute (strat : addr) (mapper : Mapper) : M unit :=
  modify (add_call (init_class_attribute_call strat mapper)).

Definition setup_query (strat : addr) (compile_state : QueryContext)
    (query_entity : handle) (path : PathRegistry) (loadopt : option Load)
    (adapter : handle) (kwargs : pydict string pyvalue) : M unit :=
  modify (add_call
    (setup_query_call strat compile_state query_entity path loadopt adapter kwargs)).

Definition create_row_processor (strat : addr) (context : QueryContext)
    (query_entity : handle) (path : PathRegistry) (loadopt : option Load)
    (mapper : Mapper) (res adapter populators : handle) : M unit :=
  modify (add_call
    (create_row_processor_call strat context query_entity path loadopt
       mapper res adapter populators)).

End LoaderStrategy.

(** ** [MapperProperty] *)

Module MapperProperty.

(** [__init__]: both flags start false. *)
Definition __init__ : M unit :=
  let* _ := modify (set_self (with_configure_started false)) in
  modify (set_self (with_configure_finished false)).

(** [set_parent(parent, init)] *)
Definition set_parent (parent_mapper : Mapper) (init : bool) : M unit :=
  modify (set_self (with_parent parent_mapper)).

(** The template method, empty in [MapperProperty]. *)
Definition do_init : M unit := ret tt.

(** [init()], with the [do_init] of the class of [self]. *)
Definition init (do_init : M unit) : M unit :=
  let* _ := modify (set_self (with_configure_started true)) in
  let* _ := do_init in
  modify (set_self (with_configure_finished true)).

End MapperProperty.

(** ** [StrategizedProperty] *)

Module StrategizedProperty.

(** The first of the three keys that [context.attributes] holds. *)
Fixpoint probe (attrs : pydict path_key Load) (path_keys : list path_key)
    : option Load :=
  match path_keys with
  | [] => None
  | path_key :: rest =>
      if dict_contains attrs path_key
      then dict_get attrs path_key
      else probe attrs rest
  end.

Definition _get_context_loader (p : StrategizedProperty)
    (context : QueryContext) (path : PathRegistry) : option Load :=
  let search_path := path_getitem path (prop_id p) in
  probe (attributes context)
    [ _loader_key search_path;
      _wildcard_path_loader_key search_path;
      _default_path_loader_key search_path ].

(** The first loop of [_strategy_lookup], over [cls.__mro__]. *)
Fixpoint mro_lookup (all : pydict pyclass (pydict StrategyKey pyclass))
    (mro : list pyclass) (key : StrategyKey) : option pyclass :=
  match mro with
  | [] => None
  | prop_cls :: rest =>
      match dict_get all prop_cls with
      | Some strategies =>
          match dict_get strategies key with
          | Some strat_cls => Some strat_cls
          | None => mro_lookup all rest key
          end
      | None => mro_lookup all rest key
      end
  end.

(** The second loop, over all the registries in insertion order: the
    property type that has the key and the strategy it has for it. *)
Fixpoint scan_all (items : pydict pyclass (pydict StrategyKey pyclass))
    (key : StrategyKey) : option pyclass * option pyclass :=
  match items with
  | [] => (None, None)
  | (property_type, strats) :: rest =>
      match dict_get strats key with
      | Some actual_strategy => (Some property_type, Some actual_strategy)
      | None => scan_all rest key
      end
  end.

(** [_strategy_lookup(cls, requesting_property, *key)].  The read of
    [requesting_property.parent._with_polymorphic_mappers] needs the
    parent; what the mapper does for it is the mapper's business. *)
Definition _strategy_lookup (cls : PropertyClass)
    (requesting_property : StrategizedProperty) (key : StrategyKey)
    (all : pydict pyclass (pydict StrategyKey pyclass)) : result pyclass :=
  match parent requesting_property with
  | None => Raise (AttributeError "parent")
  | Some _ =>
      match mro_lookup all (__mro__ cls) key with
      | Some strat_cls => Ok strat_cls
      | None =>
          let '(intended_property_type, actual_strategy) := scan_all all key in
          Raise (LoaderStrategyException (cls_name cls)
                   (prop_id requesting_property)
                   intended_property_type actual_strategy key)
      end
  end.

(** The decorator of [cls.strategy_for], given the keyword arguments [kw],
    applied to the strategy class [dec_cls]. *)
Definition strategy_for (cls : pyclass) (kw : pydict string pyvalue)
    (dec_cls : pyclass) : M pyclass :=
  let* all := gets _all_strategies in
  let* keys := gets _strategy_keys in
  let key := sorted_items kw in
  let own := default [] (dict_get all cls) in
  let own_keys := default [] (dict_get keys dec_cls) in
  let* _ := modify (set_registry
              (dict_set all cls (dict_set own key dec_cls))
              (dict_set keys dec_cls (own_keys ++ [key])%list)) in
  ret dec_cls.

Definition _get_strategy (key : StrategyKey) : M addr :=
  let* strategies := getattr "_strategies" _strategies in
  match dict_get strategies key with
  | Some strat => ret strat
  | None =>
      let* p := gets self in
      let* all := gets _all_strategies in
      let* cls := lift (_strategy_lookup (prop_class p) p key all) in
      let* strat := LoaderStrategy.new cls key in
      let* strategies := getattr "_strategies" _strategies in
      let* _ := modify (set_self (with_strategies (dict_set strategies key strat))) in
      ret strat
  end.

(** [loader and loader.strategy]: the key when the test succeeds.  [None]
    and the empty tuple are false. *)
Definition selects_strategy (loader : option Load) : option StrategyKey :=
  match loader with
  | Some l =>
      match load_strategy l with
      | Some (item :: items) => Some (item :: items)
      | _ => None
      end
  | None => None
  end.

Definition setup (context : QueryContext) (query_entity : handle)
    (path : PathRegistry) (adapter : handle)
    (kwargs : pydict string pyvalue) : M unit :=
  let* p := gets self in
  let loader := _get_context_loader p context path in
  let* strat :=
    match selects_strategy loader with
    | Some k => _get_strategy k
    | None => getattr "strategy" strategy
    end in
  LoaderStrategy.setup_query strat context query_entity path loader adapter kwargs.

Definition create_row_processor (context : QueryContext)
    (query_entity : handle) (path : PathRegistry) (mapper : Mapper)
    (res adapter populators : handle) : M unit :=
  let* p := gets self in
  let loader := _get_context_loader p context path in
  let* strat :=
    match selects_strategy loader with
    | Some k => _get_strategy k
    | None => getattr "strategy" strategy
    end in
  LoaderStrategy.create_row_processor strat context query_entity path loader
    mapper res adapter populators.

Definition do_init : M unit :=
  let* _ := modify (set_self (with_strategies [])) in
  let* k := gets (fun s => strategy_key (self s)) in
  let* strat := _get_strategy k in
  modify (set_self (with_strategy strat)).

(** [init] is inherited; [do_init] is the one above. *)
Definition init : M unit := MapperProperty.init do_init.

Definition post_instrument_class (mapper : Mapper) : M unit :=
  let* parent_mapper := getattr "parent" parent in
  if non_primary parent_mapper then ret tt
  else
    let* k := getattr "key" key in
    if _attr_has_impl (class_manager mapper) k then ret tt
    else
      let* strat := getattr "strategy" strategy in
      LoaderStrategy.init_class_attribute strat mapper.

End StrategizedProperty.

(** ** Options *)

(** Compile state options.  An option object derives from one of the
    classes of this module and may define the two methods itself; a method
    it does not define is the one of its base class.  A method acts on the
    compile state and may raise. *)
Inductive OptionBase :=
  | CompileStateOptionBase
  | LoaderOptionBase
  | CriteriaOptionBase.

Section options.
Context {CompileState : Type}.

Definition effect := CompileState -> result unit * CompileState.

Record OptionObject := {
  option_base : OptionBase;
  own_process_compile_state : option effect;
  own_process_compile_state_replaced_entities : option (list handle -> effect);
}.

(** [CompileStateOption.process_compile_state]: an empty body. *)
Definition CompileStateOption_process_compile_state : effect :=
  fun compile_state => (Ok tt, compile_state).

(** [CompileStateOption.process_compile_state_replaced_entities]: empty. *)
Definition CompileStateOption_process_compile_state_replaced_entities
    (mapper_entities : list handle) : effect :=
  fun compile_state => (Ok tt, compile_state).

(** [opt.process_compile_state(compile_state)], resolved on [opt].  None
    of the three classes overrides the method of [CompileStateOption]. *)
Definition process_compile_state (opt : OptionObject) : effect :=
  match own_process_compile_state opt with
  | Some method => method
  | None => CompileStateOption_process_compile_state
  end.

(** [LoaderOption.process_compile_state_replaced_entities] *)
Definition LoaderOption_process_compile_state_replaced_entities
    (opt : OptionObject) (mapper_entities : list handle) : effect :=
  fun compile_state => process_compile_state opt compile_state.

(** [opt.process_compile_state_replaced_entities(compile_state,
    mapper_entities)], resolved on [opt]. *)
Definition process_compile_state_replaced_entities (opt : OptionObject)
    (mapper_entities : list handle) : effect :=
  match own_process_compile_state_replaced_entities opt with
  | Some method => method mapper_entities
  | None =>
      match option_base opt with
      | LoaderOptionBase =>
          LoaderOption_process_compile_state_replaced_entities opt mapper_entities
      | CompileStateOptionBase | CriteriaOptionBase =>
          CompileStateOption_process_compile_state_replaced_entities mapper_entities
      end
  end.
End options.
Arguments OptionObject CompileState : clear implicits.
Arguments effect CompileState : clear implicits.

(** ** Sequences of operations on a property *)

Inductive Op :=
  | op_set_parent (m : Mapper) (init : bool)
  | op_init
  | op_do_init
  | op_strategy_for (cls : pyclass) (kw : pydict string pyvalue) (dec_cls : pyclass)
  | op_get_strategy (key : StrategyKey)
  | op_setup (context : QueryContext) (query_entity : handle)
      (path : PathRegistry) (adapter : handle) (kwargs : pydict string pyvalue)
  | op_create_row_processor (context : QueryContext) (query_entity : handle)
      (path : PathRegistry) (mapper : Mapper) (res adapter populators : handle)
  | op_post_instrument_class (mapper : Mapper).

(** The state an operation leaves, whether it returned or raised. *)
Definition run_op (o : Op) (s : State) : State :=
  match o with
  | op_set_parent m init => (MapperProperty.set_parent m init s).2
  | op_init => (StrategizedProperty.init s).2
  | op_do_init => (StrategizedProperty.do_init s).2
  | op_strategy_for cls kw dec_cls => (StrategizedProperty.strategy_for cls kw dec_cls s).2
  | op_get_strategy k => (StrategizedProperty._get_strategy k s).2
  | op_setup c q p a kw => (StrategizedProperty.setup c q p a kw s).2
  | op_create_row_processor c q p m r a pop =>
      (StrategizedProperty.create_row_processor c q p m r a pop s).2
  | op_post_instrument_class m => (StrategizedProperty.post_instrument_class m s).2
  end.

Definition run_ops (ops : list Op) (s : State) : State :=
  foldl (fun s o => run_op o s) s ops.

(** The operations that happen once a property is configured: everything
    but [init] and [do_init]. *)
Definition query_time (o : Op) : bool :=
  match o with
  | op_init | op_do_init => false
  | _ => true
  end.

(** ** A small mapping, for examples *)

Module Example.

Definition lazy_select : StrategyKey := [("lazy", VStr "select")].
Definition lazy_joined : StrategyKey := [("lazy", VStr "joined")].
Definition lazy_true : StrategyKey := [("lazy", VBool true)].

Definition RelationshipProperty : PropertyClass :=
  {| cls_name := "RelationshipProperty";
     cls_ancestors := ["StrategizedProperty"; "MapperProperty"; "object"] |}.

Definition user_mapper : Mapper :=
  {| mapper_id := 1; non_primary := false;
     class_manager := {| _attr_has_impl := fun _ => false |} |}.

(** [User.addresses], constructed and given to its mapper. *)
Definition addresses : StrategizedProperty :=
  {| prop_id := 7; prop_class := RelationshipProperty;
     _configure_started := false; _configure_finished := false;
     parent := Some user_mapper; key := Some "addresses";
     strategy_key := lazy_select;
     _strategies := None; strategy := None |}.

Definition empty_state : State :=
  {| self := addresses; heap := ∅; _all_strategies := [];
     _strategy_keys := []; calls := [] |}.

(** The registrations a relationship has: [LazyLoader] answers two keys. *)
Definition registered : State :=
  run_ops
    [ op_strategy_for "RelationshipProperty" [("lazy", VStr "select")] "LazyLoader";
      op_strategy_for "RelationshipProperty" [("lazy", VBool true)] "LazyLoader";
      op_strategy_for "RelationshipProperty" [("lazy", VStr "joined")] "JoinedLoader";
      op_strategy_for "ColumnProperty"
        [("instrument", VBool true); ("deferred", VBool false)] "ColumnLoader" ]
    empty_state.

Definition configured : State := (StrategizedProperty.init registered).2.

Definition ColumnProperty : PropertyClass :=
  {| cls_name := "ColumnProperty";
     cls_ancestors := ["StrategizedProperty"; "MapperProperty"; "object"] |}.

(** [User.name] *)
Definition name_column : StrategizedProperty :=
  {| prop_id := 8; prop_class := ColumnProperty;
     _configure_started := false; _configure_finished := false;
     parent := Some user_mapper; key := Some "name";
     strategy_key := [("deferred", VBool false); ("instrument", VBool true)];
     _strategies := None; strategy := None |}.

(** A property class of an extension, which registers nothing itself. *)
Definition DerivedRelationship : PropertyClass :=
  {| cls_name := "DerivedRelationship";
     cls_ancestors :=
       ["RelationshipProperty"; "StrategizedProperty"; "MapperProperty"; "object"] |}.

Definition search_path : PropRegistry :=
  {| _loader_key := ("loader", [PEntity 1; PAttr 7]);
     _wildcard_path_loader_key := ("loader", [PEntity 1; PToken "relationship:*"]);
     _default_path_loader_key := ("loader", [PToken "relationship:_sa_default"]) |}.

Definition path : PathRegistry :=
  {| path_id := 3; path_getitem := fun _ => search_path |}.

Definition joined_option : Load :=
  {| load_id := 11; load_strategy := Some lazy_joined; local_opts := [] |}.

Definition defaultload_option : Load :=
  {| load_id := 12; load_strategy := None; local_opts := [] |}.

Definition context_with (opts : pydict path_key Load) : QueryContext :=
  {| context_id := 5; attributes := opts |}.

(** A loader option that defines [process_compile_state] only. *)
Definition joinedload : OptionObject (list string) :=
  {| option_base := LoaderOptionBase;
     own_process_compile_state := Some (fun cs => (Ok tt, "joinedload" :: cs));
     own_process_compile_state_replaced_entities := None |}.

(** The key of a plain column, and the registrations of the example as a
    sequence of operations. *)
Definition column_key : StrategyKey :=
  [("deferred", VBool false); ("instrument", VBool true)].

Definition registrations : list Op :=
  [ op_strategy_for "RelationshipProperty" [("lazy", VStr "select")] "LazyLoader";
    op_strategy_for "RelationshipProperty" [("lazy", VBool true)] "LazyLoader";
    op_strategy_for "RelationshipProperty" [("lazy", VStr "joined")] "JoinedLoader";
    op_strategy_for "ColumnProperty"
      [("instrument", VBool true); ("deferred", VBool false)] "ColumnLoader" ].

End Example.

(** ** [PropComparator] *)

(** Mappers and aliased entities, by identity. *)
Definition entity := nat.

(** Slots of [PropComparator], with the class of the comparator.  [prop]
    and [property] are assigned together. *)
Record PropComparator := {
  comparator_class : pyclass;
  prop : nat;
  property : nat;
  _parententity : entity;
  _adapt_to_entity : option entity;
}.

Module PropComparator.

(** [__init__(self, prop, parentmapper, adapt_to_entity=None)]; the parent
    entity is [adapt_to_entity or parentmapper]. *)
Definition __init__ (cls : pyclass) (prop_ : nat) (parentmapper : entity)
    (adapt_to_entity : option entity) : PropComparator :=
  {| comparator_class := cls;
     prop := prop_;
     property := prop_;
     _parententity :=
       match adapt_to_entity with
       | Some aliased => aliased
       | None => parentmapper
       end;
     _adapt_to_entity := adapt_to_entity |}.

(** [adapt_to_entity(self, adapt_to_entity)]: a comparator of the same
    class, made from the slots of this one. *)
Definition adapt_to_entity (c : PropComparator) (adapt_to_entity : option entity)
    : PropComparator :=
  __init__ (comparator_class c) (prop c) (_parententity c) adapt_to_entity.

(** The [adapter] property: [None], or [_adapt_element] of the entity
    adapted to, given here by that entity. *)
Definition adapter (c : PropComparator) : option entity :=
  match _adapt_to_entity c with
  | None => None
  | Some aliased => Some aliased
  end.

End PropComparator.

(** ** Tokens of the wildcard and default keys *)

Section tokens.
(** [path_registry._WILDCARD_TOKEN] and [path_registry._DEFAULT_TOKEN] *)
Context (_WILDCARD_TOKEN _DEFAULT_TOKEN : string).

(** What an f-string makes of [strategy_wildcard_key], which is [None] in
    [StrategizedProperty] and a string in its subclasses. *)
Definition format_wildcard_key (strategy_wildcard_key : option string) : string :=
  match strategy_wildcard_key with
  | None => "None"
  | Some name => name
  end.

Definition _memoized_attr__wildcard_token (strategy_wildcard_key : option string)
    : list path_elem :=
  [PToken (format_wildcard_key strategy_wildcard_key +:+ ":" +:+ _WILDCARD_TOKEN)].

Definition _memoized_attr__default_path_loader_key
    (strategy_wildcard_key : option string) : path_key :=
  ("loader",
   [PToken (format_wildcard_key strategy_wildcard_key +:+ ":" +:+ _DEFAULT_TOKEN)]).
End tokens.

(** ** Predicates on states *)

(** What the registry scoped to class [c] has for [key], if anything. *)
Definition registered_for (all : pydict pyclass (pydict StrategyKey pyclass))
    (c : pyclass) (key : StrategyKey) : option pyclass :=
  match dict_get all c with
  | Some strategies => dict_get strategies key
  | None => None
  end.

(** The cache of [self] has the instance at [a] under [key]. *)
Definition cached (s : State) (key : StrategyKey) (a : addr) : Prop :=
  ∃ strategies,
    _strategies (self s) = Some strategies ∧ dict_get strategies key = Some a.

(** Every cached instance is a live object made for the key it is cached
    under, and for this property. *)
Definition cache_wf (s : State) : Prop :=
  ∀ strategies key a,
    _strategies (self s) = Some strategies →
    dict_get strategies key = Some a →
    ∃ inst,
      heap s !! a = Some inst
      ∧ ls_strategy_key inst = key
      ∧ strategy_opts inst = dict_of_pairs key
      ∧ parent_property inst = prop_id (self s).

(** The two configuration flags of [self]. *)
Definition flags (s : State) : bool * bool :=
  (_configure_started (self s), _configure_finished (self s)).

(** The load option names no strategy: its [strategy] is [None] or empty. *)
Definition no_strategy (loader : option Load) : Prop :=
  loader = None
  ∨ ∃ load, loader = Some load
      ∧ (load_strategy load = None ∨ load_strategy load = Some []).

(** Every key of every registry is sorted by name. *)
Definition keys_sorted (all : pydict pyclass (pydict StrategyKey pyclass)) : Prop :=
  Forall (fun item : pyclass * pydict StrategyKey pyclass =>
            Forall (fun entry : StrategyKey * pyclass => Sorted item_le entry.1)
              item.2) all.

(** A strategy class lists among its [_strategy_keys] every key it is
    registered for. *)
Definition keys_recorded (s : State) : Prop :=
  ∀ c k dec,
    registered_for (_all_strategies s) c k = Some dec →
    ∃ keys, dict_get (_strategy_keys s) dec = Some keys ∧ k ∈ keys.

(** * Properties *)

(** ** Dictionaries *)

Section pydict_facts.
Context {K V : Type} `{EqDecision K}.
Implicit Types (d : list (K * V)) (k : K) (v : V).

Lemma dict_get_set_eq d k v : dict_get (dict_set d k v) k = Some v.
Proof.
  induction d as [|[k' v'] d IH]; simpl.
  - by rewrite decide_True.
  - destruct (decide (k = k')) as [->|Hne]; simpl.
    + by rewrite decide_True.
    + by rewrite decide_False.
Qed.

Lemma dict_get_set_ne d k k' v :
  k ≠ k' → dict_get (dict_set d k v) k' = dict_get d k'.
Proof.
  intros Hne. induction d as [|[k0 v0] d IH]; simpl.
  - by rewrite decide_False.
  - destruct (decide (k = k0)) as [->|Hne0]; simpl.
    + by rewrite !decide_False.
    + by rewrite IH.
Qed.

Lemma dict_contains_get d k : dict_contains d k = true ↔ is_Some (dict_get d k).
Proof.
  unfold dict_contains. destruct (dict_get d k); split; done || by intros [? ?].
Qed.

Lemma dict_get_elem_of d k v : dict_get d k = Some v → (k, v) ∈ d.
Proof.
  induction d as [|[k' v'] d IH]; simpl; [done|].
  destruct (decide (k = k')) as [->|Hne].
  - intros [= ->]. left.
  - intros Hget. right. by apply IH.
Qed.

Lemma dict_get_NoDup d k v : NoDup d.*1 → (k, v) ∈ d → dict_get d k = Some v.
Proof.
  induction d as [|[k' v'] d IH]; simpl; [by intros _ ?%elem_of_nil|].
  intros [Hk' Hd]%NoDup_cons [[= -> ->]|Hin]%elem_of_cons.
  - by rewrite decide_True.
  - rewrite decide_False; [by apply IH|].
    intros ->. apply Hk'. apply list_elem_of_fmap. by exists (k', v).
Qed.
End pydict_facts.

(** ** Sorting the items of a keyword dictionary *)

Lemma ascii_compare_trans_le (a b c : Ascii.ascii) :
  Ascii.compare a b ≠ Gt → Ascii.compare b c ≠ Gt → Ascii.compare a c ≠ Gt.
Proof.
  unfold Ascii.compare. rewrite !N.compare_gt_iff. lia.
Qed.

Lemma string_leb_trans (a b c : string) :
  String.leb a b = true → String.leb b c = true → String.leb a c = true.
Proof.
  unfold String.leb. revert b c.
  induction a as [|x a IH]; intros [|y b] [|z c]; simpl; try done.
  destruct (Ascii.compare x y) eqn:Hxy; [|clear IH|done];
    destruct (Ascii.compare y z) eqn:Hyz; try done.
  - apply Ascii.compare_eq_iff in Hxy as ->. rewrite Hyz. apply IH.
  - apply Ascii.compare_eq_iff in Hxy as ->. by rewrite Hyz.
  - apply Ascii.compare_eq_iff in Hyz as <-. by rewrite Hxy.
  - intros _ _. unfold Ascii.compare in *.
    rewrite N.compare_lt_iff in Hxy, Hyz.
    assert ((Ascii.N_of_ascii x ?= Ascii.N_of_ascii z)%N = Lt) as ->; [|done].
    apply N.compare_lt_iff. lia.
Qed.

#[global] Instance item_le_total : Total item_le.
Proof. intros a b. apply String.leb_total. Qed.

#[global] Instance item_le_trans : Transitive item_le.
Proof. intros a b c. apply string_leb_trans. Qed.

Lemma sorted_items_Permutation (kw : pydict string pyvalue) : sorted_items kw ≡ₚ kw.
Proof. apply merge_sort_Permutation. Qed.

(** Two dictionaries with the same items give the same key, whatever the
    order their items were inserted in. *)
Lemma sorted_items_insertion_order (kw1 kw2 : pydict string pyvalue) :
  NoDup kw1.*1 → kw1 ≡ₚ kw2 → sorted_items kw1 = sorted_items kw2.
Proof.
  intros Hnodup Hperm.
  apply (Sorted_unique_strong item_le).
  - intros [n1 v1] [n2 v2] Hin1 Hin2 H12 H21.
    rewrite sorted_items_Permutation in Hin1.
    rewrite sorted_items_Permutation, <-Hperm in Hin2.
    pose proof (String.leb_antisym _ _ H12 H21) as Heq. simpl in Heq. subst n2.
    f_equal. apply (dict_get_NoDup _ _ _ Hnodup) in Hin1, Hin2. congruence.
  - apply Sorted_merge_sort, _.
  - apply Sorted_merge_sort, _.
  - by rewrite !sorted_items_Permutation.
Qed.

(** ** The strategy registry *)

Lemma mro_lookup_cons all c mro key :
  StrategizedProperty.mro_lookup all (c :: mro) key =
    match registered_for all c key with
    | Some sc => Some sc
    | None => StrategizedProperty.mro_lookup all mro key
    end.
Proof. unfold registered_for. simpl. by destruct (dict_get all c). Qed.

Lemma mro_lookup_None all mro key :
  StrategizedProperty.mro_lookup all mro key = None ↔
  Forall (fun c => registered_for all c key = None) mro.
Proof.
  induction mro as [|c mro IH]; [by split; [constructor|]|].
  rewrite mro_lookup_cons, Forall_cons.
  destruct (registered_for all c key); [|by rewrite IH; intuition].
  split; [done|]. by intros [? _].
Qed.

Lemma mro_lookup_Some all mro key sc :
  StrategizedProperty.mro_lookup all mro key = Some sc ↔
  ∃ before c after,
    mro = before ++ c :: after
    ∧ Forall (fun b => registered_for all b key = None) before
    ∧ registered_for all c key = Some sc.
Proof.
  induction mro as [|c mro IH].
  { split; [done|]. intros (before & c & after & Heq & _). by destruct before. }
  rewrite mro_lookup_cons.
  destruct (registered_for all c key) as [sc'|] eqn:Hc.
  - split.
    + intros [= ->]. by exists [], c, mro.
    + intros ([|b before] & c' & after & Heq & Hbefore & Hc');
        simplify_eq/=; try congruence.
      apply Forall_cons in Hbefore as [? _]. congruence.
  - rewrite IH. split.
    + intros (before & c' & after & -> & Hbefore & Hc').
      exists (c :: before), c', after. by rewrite Forall_cons.
    + intros ([|b before] & c' & after & Heq & Hbefore & Hc');
        simplify_eq/=; try congruence.
      apply Forall_cons in Hbefore as [_ ?]. by exists before, c', after.
Qed.

Lemma scan_all_spec all key :
  match StrategizedProperty.scan_all all key with
  | (Some property_type, Some strat_cls) =>
      ∃ before strats after,
        all = before ++ (property_type, strats) :: after
        ∧ Forall (fun item => dict_get item.2 key = None) before
        ∧ dict_get strats key = Some strat_cls
  | (None, None) => Forall (fun item => dict_get item.2 key = None) all
  | _ => False
  end.
Proof.
  induction all as [|[pt strats] all IH]; simpl; [constructor|].
  destruct (dict_get strats key) as [sc|] eqn:Hget.
  - by exists [], strats, all.
  - destruct (StrategizedProperty.scan_all all key) as [[pt'|] [sc'|]]; try done.
    + destruct IH as (before & strats' & after & -> & Hbefore & Hsc).
      exists ((pt, strats) :: before), strats', after. by rewrite Forall_cons.
    + by rewrite Forall_cons.
Qed.

(** C2: [_get_context_loader] probes the exact-path key, then the wildcard
    key, then the default key, and the first key present wins: an entry at
    the exact key is returned whatever the other two keys hold; without it
    an entry at the wildcard key is returned; without both the answer is
    what the default key holds, if anything. *)
Theorem context_loader_precedence (p : StrategizedProperty)
    (context : QueryContext) (path : PathRegistry) :
  let search_path := path_getitem path (prop_id p) in
  let found path_key := dict_get (attributes context) path_key in
  (∀ load, found (_loader_key search_path) = Some load →
     StrategizedProperty._get_context_loader p context path = Some load)
  ∧ (∀ load, found (_loader_key search_path) = None →
       found (_wildcard_path_loader_key search_path) = Some load →
       StrategizedProperty._get_context_loader p context path = Some load)
  ∧ (found (_loader_key search_path) = None →
     found (_wildcard_path_loader_key search_path) = None →
     StrategizedProperty._get_context_loader p context path =
       found (_default_path_loader_key search_path)).
Proof.
  intros search_path found.
  unfold StrategizedProperty._get_context_loader, found. fold search_path.
  simpl. unfold dict_contains.
  repeat split.
  - intros load ->. done.
  - intros load -> ->. done.
  - intros -> ->. by destruct (dict_get _ _).
Qed.

(** C3, as the code has it: [strategy_for] sorts the items of its keyword
    arguments, so registering under the same items in any insertion order
    has one and the same effect, and the entry is found by
    [_strategy_lookup] under the sorted tuple of these items, from whatever
    order it was sorted.  [_strategy_lookup] itself takes the key tuple as
    it is given. *)
Theorem strategy_for_insertion_order (cls : pyclass)
    (kw1 kw2 : pydict string pyvalue) (dec_cls : pyclass) (s : State) :
  NoDup kw1.*1 → kw1 ≡ₚ kw2 →
  StrategizedProperty.strategy_for cls kw1 dec_cls s
    = StrategizedProperty.strategy_for cls kw2 dec_cls s
  ∧ ∀ (requesting_class : PropertyClass) (p : StrategizedProperty),
      cls_name requesting_class = cls → is_Some (parent p) →
      StrategizedProperty._strategy_lookup requesting_class p (sorted_items kw2)
        (_all_strategies (StrategizedProperty.strategy_for cls kw1 dec_cls s).2)
      = Ok dec_cls.
Proof.
  intros Hnodup Hperm.
  pose proof (sorted_items_insertion_order kw1 kw2 Hnodup Hperm) as Hkey.
  split.
  - unfold StrategizedProperty.strategy_for, bind, gets, modify, ret.
    by rewrite Hkey.
  - intros rc p <- [m Hm].
    unfold StrategizedProperty._strategy_lookup. rewrite Hm.
    unfold __mro__. rewrite mro_lookup_cons.
    unfold registered_for, StrategizedProperty.strategy_for, bind, gets, modify, ret.
    simpl. by rewrite dict_get_set_eq, Hkey, dict_get_set_eq.
Qed.

(** C4: [_strategy_lookup] returns what the first class of the method
    resolution order whose registry contains the key has for it.  The
    requesting class is first in that order; a class that does not register
    the key itself gets the strategy of its nearest ancestor that does. *)
Theorem strategy_lookup_mro (cls : PropertyClass) (p : StrategizedProperty)
    (key : StrategyKey) (all : pydict pyclass (pydict StrategyKey pyclass)) :
  is_Some (parent p) →
  (∀ strat_cls,
     StrategizedProperty._strategy_lookup cls p key all = Ok strat_cls ↔
     ∃ before c after,
       __mro__ cls = before ++ c :: after
       ∧ Forall (fun b => registered_for all b key = None) before
       ∧ registered_for all c key = Some strat_cls)
  ∧ (∀ strat_cls, registered_for all (cls_name cls) key = Some strat_cls →
       StrategizedProperty._strategy_lookup cls p key all = Ok strat_cls)
  ∧ (∀ nearer base further strat_cls,
       registered_for all (cls_name cls) key = None →
       cls_ancestors cls = nearer ++ base :: further →
       Forall (fun b => registered_for all b key = None) nearer →
       registered_for all base key = Some strat_cls →
       StrategizedProperty._strategy_lookup cls p key all = Ok strat_cls).
Proof.
  intros [m Hm].
  assert (∀ strat_cls,
     StrategizedProperty._strategy_lookup cls p key all = Ok strat_cls ↔
     StrategizedProperty.mro_lookup all (__mro__ cls) key = Some strat_cls) as Hlookup.
  { intros sc. unfold StrategizedProperty._strategy_lookup. rewrite Hm.
    destruct (StrategizedProperty.mro_lookup all (__mro__ cls) key).
    - split; congruence.
    - destruct (StrategizedProperty.scan_all all key). split; congruence. }
  split; [|split].
  - intros sc. by rewrite Hlookup, mro_lookup_Some.
  - intros sc Hown. apply Hlookup. unfold __mro__.
    by rewrite mro_lookup_cons, Hown.
  - intros nearer base further sc Hown Hanc Hnearer Hbase.
    apply Hlookup, mro_lookup_Some.
    exists (cls_name cls :: nearer), base, further.
    unfold __mro__. rewrite Hanc, Forall_cons. done.
Qed.

(** C5: when no registry of the method resolution order of the requesting
    class contains the key, [_strategy_lookup] raises
    [LoaderStrategyException] with the requesting class, the requesting
    property, the key, and the first property type among all registries
    that has the key together with the strategy it has for it, or [None]
    for both; what the scan over all registries finds is never returned. *)
Theorem strategy_lookup_unregistered (cls : PropertyClass)
    (p : StrategizedProperty) (key : StrategyKey)
    (all : pydict pyclass (pydict StrategyKey pyclass)) :
  is_Some (parent p) →
  Forall (fun c => registered_for all c key = None) (__mro__ cls) →
  ∃ applies_to actual_strategy,
    StrategizedProperty._strategy_lookup cls p key all =
      Raise (LoaderStrategyException (cls_name cls) (prop_id p)
               applies_to actual_strategy key)
    ∧ ((applies_to = None ∧ actual_strategy = None
        ∧ Forall (fun item => dict_get item.2 key = None) all)
       ∨ (∃ property_type strat_cls before strats after,
            applies_to = Some property_type
            ∧ actual_strategy = Some strat_cls
            ∧ all = before ++ (property_type, strats) :: after
            ∧ Forall (fun item => dict_get item.2 key = None) before
            ∧ dict_get strats key = Some strat_cls)).
Proof.
  intros [m Hm] Hnone%mro_lookup_None.
  unfold StrategizedProperty._strategy_lookup. rewrite Hm, Hnone.
  pose proof (scan_all_spec all key) as Hscan.
  destruct (StrategizedProperty.scan_all all key) as [[pt|] [sc|]]; try done.
  - exists (Some pt), (Some sc). split; [done|]. right.
    destruct Hscan as (before & strats & after & ? & ? & ?).
    by exists pt, sc, before, strats, after.
  - exists None, None. split; [done|]. by left.
Qed.

(** ** The strategy cache of a property *)

Ltac unfold_monad :=
  unfold bind, gets, modify, ret, lift, getattr, raise in *.

(** [_get_strategy] case by case. *)
Lemma get_strategy_unfold (key : StrategyKey) (s : State) :
  StrategizedProperty._get_strategy key s =
    match _strategies (self s) with
    | None => (Raise (AttributeError "_strategies"), s)
    | Some strategies =>
        match dict_get strategies key with
        | Some strat => (Ok strat, s)
        | None =>
            match StrategizedProperty._strategy_lookup
                    (prop_class (self s)) (self s) key (_all_strategies s) with
            | Raise e => (Raise e, s)
            | Ok cls =>
                match LoaderStrategy.__init__ cls (self s) key with
                | Raise e => (Raise e, s)
                | Ok inst =>
                    let a := fresh (dom (heap s)) in
                    (Ok a,
                     set_self (with_strategies (dict_set strategies key a))
                       (set_heap (<[a := inst]> (heap s)) s))
                end
            end
        end
    end.
Proof.
  unfold StrategizedProperty._get_strategy, LoaderStrategy.new. unfold_monad.
  destruct (_strategies (self s)) as [d|] eqn:Hd; [|done].
  destruct (dict_get d key); [done|].
  destruct (StrategizedProperty._strategy_lookup _ _ _ _); [|done].
  destruct (LoaderStrategy.__init__ _ _ _); [|done].
  simpl. by rewrite Hd.
Qed.

Lemma get_strategy_hit s key a :
  cached s key a → StrategizedProperty._get_strategy key s = (Ok a, s).
Proof. intros (d & Hd & Hget). by rewrite get_strategy_unfold, Hd, Hget. Qed.

Lemma get_strategy_Ok_cached s key a s' :
  StrategizedProperty._get_strategy key s = (Ok a, s') → cached s' key a.
Proof.
  rewrite get_strategy_unfold. intros Hrun.
  repeat case_match; simplify_eq/=.
  - by eexists.
  - eexists. split; [done|]. apply dict_get_set_eq.
Qed.

Lemma get_strategy_Raise s key e s' :
  StrategizedProperty._get_strategy key s = (Raise e, s') → s' = s.
Proof. rewrite get_strategy_unfold. intros Hrun. by repeat case_match; simplify_eq. Qed.

Lemma get_strategy_keeps_cached s key a key' :
  cached s key a → cached (StrategizedProperty._get_strategy key' s).2 key a.
Proof.
  intros (d & Hd & Hget). rewrite get_strategy_unfold, Hd.
  repeat case_match; simpl; try by exists d.
  eexists. split; [done|]. rewrite dict_get_set_ne; [done|]. congruence.
Qed.

Lemma add_call_cached s c key a : cached s key a → cached (add_call c s) key a.
Proof. done. Qed.

Lemma setup_state context query_entity path adapter kwargs s :
  let s' := (StrategizedProperty.setup context query_entity path adapter kwargs s).2 in
  s' = s ∨ (∃ c, s' = add_call c s)
  ∨ (∃ k, s' = (StrategizedProperty._get_strategy k s).2)
  ∨ (∃ k c, s' = add_call c (StrategizedProperty._get_strategy k s).2).
Proof.
  unfold StrategizedProperty.setup, LoaderStrategy.setup_query. unfold_monad. simpl.
  destruct (StrategizedProperty.selects_strategy _) as [k|].
  - destruct (StrategizedProperty._get_strategy k s) as [[a|e] s1] eqn:Hrun; simpl.
    + right. right. right. exists k. eexists. by rewrite Hrun.
    + right. right. left. exists k. by rewrite Hrun.
  - destruct (strategy (self s)); simpl; eauto.
Qed.

Lemma create_row_processor_state context query_entity path mapper res adapter populators s :
  let s' := (StrategizedProperty.create_row_processor
               context query_entity path mapper res adapter populators s).2 in
  s' = s ∨ (∃ c, s' = add_call c s)
  ∨ (∃ k, s' = (StrategizedProperty._get_strategy k s).2)
  ∨ (∃ k c, s' = add_call c (StrategizedProperty._get_strategy k s).2).
Proof.
  unfold StrategizedProperty.create_row_processor,
    LoaderStrategy.create_row_processor. unfold_monad. simpl.
  destruct (StrategizedProperty.selects_strategy _) as [k|].
  - destruct (StrategizedProperty._get_strategy k s) as [[a|e] s1] eqn:Hrun; simpl.
    + right. right. right. exists k. eexists. by rewrite Hrun.
    + right. right. left. exists k. by rewrite Hrun.
  - destruct (strategy (self s)); simpl; eauto.
Qed.

Lemma post_instrument_class_state mapper s :
  let s' := (StrategizedProperty.post_instrument_class mapper s).2 in
  s' = s ∨ (∃ c, s' = add_call c s).
Proof.
  unfold StrategizedProperty.post_instrument_class,
    LoaderStrategy.init_class_attribute. unfold_monad. simpl.
  repeat case_match; simplify_eq/=; eauto.
Qed.

(** What a query-time operation can do to the state, as far as a property
    [P] of states goes. *)
Lemma run_op_query_time (P : State → Prop) (o : Op) (s : State) :
  (∀ s c, P s → P (add_call c s)) →
  (∀ s k, P s → P (StrategizedProperty._get_strategy k s).2) →
  (∀ s m, P s → P (set_self (with_parent m) s)) →
  (∀ s r k, P s → P (set_registry r k s)) →
  query_time o = true → P s → P (run_op o s).
Proof.
  intros Hcall Hget Hparent Hreg Hq Hs.
  destruct o; simpl in *; try done.
  - by apply Hparent.
  - by apply Hreg.
  - by apply Hget.
  - destruct (setup_state context query_entity path adapter kwargs s)
      as [->|[[c ->]|[[k ->]|(k & c & ->)]]]; auto.
  - destruct (create_row_processor_state context query_entity path mapper
                res adapter populators s)
      as [->|[[c ->]|[[k ->]|(k & c & ->)]]]; auto.
  - destruct (post_instrument_class_state mapper s) as [->|[c ->]]; auto.
Qed.

Lemma run_ops_keep_cached ops s key a :
  forallb query_time ops = true → cached s key a → cached (run_ops ops s) key a.
Proof.
  revert s. induction ops as [|o ops IH]; intros s; simpl; [done|].
  intros [Ho Hops]%andb_true_iff Hs. apply IH; [done|].
  apply (run_op_query_time (fun s => cached s key a)); try done.
  intros; by apply get_strategy_keeps_cached.
Qed.

(** C1: [_get_strategy] on a key that is not cached, for a property that
    has its parent and key and whose class or one of its ancestors
    registers the key, returns a newly constructed instance of the
    registered class and adds it to the cache under the key.  Whenever
    [_get_strategy] returns an instance for a key, the instance is in the
    cache under that key, and every later call with the key, at once or
    after whatever query-time operations, returns that very instance and
    leaves the state as it is: nothing is constructed. *)
Theorem get_strategy_memoized (k : StrategyKey) (s : State) :
  (∀ strategies m name cls,
     _strategies (self s) = Some strategies →
     dict_get strategies k = None →
     parent (self s) = Some m →
     key (self s) = Some name →
     StrategizedProperty.mro_lookup (_all_strategies s)
       (__mro__ (prop_class (self s))) k = Some cls →
     ∃ a s',
       StrategizedProperty._get_strategy k s = (Ok a, s')
       ∧ heap s !! a = None
       ∧ strategy_class <$> heap s' !! a = Some cls
       ∧ _strategies (self s') = Some (dict_set strategies k a))
  ∧ (∀ a s',
       StrategizedProperty._get_strategy k s = (Ok a, s') →
       cached s' k a
       ∧ StrategizedProperty._get_strategy k s' = (Ok a, s')
       ∧ (∀ ops, forallb query_time ops = true →
            StrategizedProperty._get_strategy k (run_ops ops s')
              = (Ok a, run_ops ops s'))).
Proof.
  split.
  - intros d m name cls Hd Hmiss Hparent Hname Hmro.
    rewrite get_strategy_unfold, Hd, Hmiss.
    unfold StrategizedProperty._strategy_lookup, LoaderStrategy.__init__.
    rewrite Hparent, Hmro, Hname. eexists _, _. split; [done|]. simpl.
    split; [|split; [|done]].
    + apply (not_elem_of_dom (D:=gset addr)), is_fresh.
    + by rewrite lookup_insert_eq.
  - intros a s' Hrun.
    pose proof (get_strategy_Ok_cached _ _ _ _ Hrun) as Hcached.
    split; [done|]. split.
    + by apply get_strategy_hit.
    + intros ops Hops. by apply get_strategy_hit, run_ops_keep_cached.
Qed.

Lemma cache_wf_unset s : _strategies (self s) = None → cache_wf s.
Proof. intros Hnone d key a Hd. congruence. Qed.

Lemma init_instance cls p k inst :
  LoaderStrategy.__init__ cls p k = Ok inst →
  strategy_class inst = cls
  ∧ parent_property inst = prop_id p
  ∧ is_class_level inst = false
  ∧ parent p = Some (ls_parent inst)
  ∧ key p = Some (ls_key inst)
  ∧ ls_strategy_key inst = k
  ∧ strategy_opts inst = dict_of_pairs k.
Proof.
  unfold LoaderStrategy.__init__.
  destruct (parent p), (key p); intros [= <-]; done.
Qed.

Lemma get_strategy_wf s k : cache_wf s → cache_wf (StrategizedProperty._get_strategy k s).2.
Proof.
  intros Hwf. rewrite get_strategy_unfold.
  destruct (_strategies (self s)) as [d|] eqn:Hd; [|done].
  destruct (dict_get d k) eqn:Hk; [done|].
  destruct (StrategizedProperty._strategy_lookup _ _ _ _) as [cls|]; [|done].
  destruct (LoaderStrategy.__init__ _ _ _) as [inst|] eqn:Hinit; [|done].
  apply init_instance in Hinit as (_ & Hprop & _ & _ & _ & Hkey & Hopts).
  intros d' k' a' [= <-]. simpl.
  destruct (decide (k = k')) as [<-|Hne].
  - rewrite dict_get_set_eq. intros [= <-].
    exists inst. by rewrite lookup_insert_eq.
  - rewrite dict_get_set_ne by done. intros Hk'.
    destruct (Hwf d k' a' Hd Hk') as (inst' & Hheap & ?).
    exists inst'. split; [|done].
    rewrite lookup_insert_ne; [done|].
    intros <-. apply (is_fresh (dom (heap s))), elem_of_dom. by eexists.
Qed.

Lemma do_init_wf s : cache_wf (StrategizedProperty.do_init s).2.
Proof.
  unfold StrategizedProperty.do_init. unfold_monad.
  set (s0 := set_self (with_strategies []) s).
  assert (cache_wf s0) as Hwf0 by (intros d k a [= <-]; done).
  apply (get_strategy_wf _ (strategy_key (self s0))) in Hwf0.
  destruct (StrategizedProperty._get_strategy _ s0) as [[a|e] s1]; done.
Qed.

Lemma init_wf s : cache_wf (StrategizedProperty.init s).2.
Proof.
  unfold StrategizedProperty.init, MapperProperty.init. unfold_monad.
  pose proof (do_init_wf (set_self (with_configure_started true) s)) as Hwf.
  destruct (StrategizedProperty.do_init _) as [[[]|e] s1]; done.
Qed.

Lemma run_op_wf o s : cache_wf s → cache_wf (run_op o s).
Proof.
  intros Hwf. destruct (query_time o) eqn:Hq.
  - apply (run_op_query_time cache_wf); try done.
    intros; by apply get_strategy_wf.
  - destruct o; try done; [apply init_wf | apply do_init_wf].
Qed.

Lemma run_ops_wf ops s : cache_wf s → cache_wf (run_ops ops s).
Proof.
  revert s. induction ops as [|o ops IH]; intros s Hwf; simpl; [done|].
  by apply IH, run_op_wf.
Qed.

(** The invariant holds of a newly constructed property and so in every
    state operations lead to from there. *)
Lemma constructed_cache_wf ops s :
  _strategies (self s) = None → cache_wf (run_ops ops s).
Proof. intros Hnone. by apply run_ops_wf, cache_wf_unset. Qed.

(** [dict(key)] of a key with pairwise distinct names has the pairs of the
    key, in their order. *)
Lemma dict_set_new {K V} `{EqDecision K} (d : list (K * V)) k v :
  k ∉ d.*1 → dict_set d k v = d ++ [(k, v)].
Proof.
  induction d as [|[k' v'] d IH]; simpl; [done|].
  intros [Hne Hnotin]%not_elem_of_cons.
  by rewrite decide_False, IH.
Qed.

Lemma dict_of_pairs_NoDup (k : StrategyKey) : NoDup k.*1 → dict_of_pairs k = k.
Proof.
  unfold dict_of_pairs.
  assert (∀ acc : StrategyKey, NoDup (acc ++ k).*1 →
    foldl (fun d kv => dict_set d kv.1 kv.2) acc k = acc ++ k) as Hgen.
  { induction k as [|[n v] k IH]; intros acc Hnd; simpl.
    - by rewrite app_nil_r.
    - rewrite dict_set_new.
      + rewrite IH; rewrite <-app_assoc; done.
      + rewrite fmap_app in Hnd. apply NoDup_app in Hnd as (_ & Hdisj & _).
        intros Hin. apply (Hdisj n Hin). left. }
  intros Hnd. by apply (Hgen []).
Qed.

(** C10: the instance [_get_strategy] returns for a key carries that key,
    the dictionary of its pairs and the identity of the property; when the
    call constructed it, it is not class level, has the parent and the key
    of the property and is of the class the registry has for the key.  The
    cache is keyed by the key: the instances returned for two distinct keys
    are distinct objects, each cached under its own key, whatever classes
    the keys resolve to. *)
Theorem strategy_instance_of_key (k : StrategyKey) (s s' : State) (a : addr) :
  cache_wf s →
  StrategizedProperty._get_strategy k s = (Ok a, s') →
  (∃ inst,
     heap s' !! a = Some inst
     ∧ ls_strategy_key inst = k
     ∧ strategy_opts inst = dict_of_pairs k
     ∧ parent_property inst = prop_id (self s)
     ∧ (heap s !! a = None →
        is_class_level inst = false
        ∧ parent (self s) = Some (ls_parent inst)
        ∧ key (self s) = Some (ls_key inst)
        ∧ StrategizedProperty._strategy_lookup (prop_class (self s)) (self s) k
            (_all_strategies s) = Ok (strategy_class inst)))
  ∧ (∀ k2 a2 s2,
       k2 ≠ k →
       StrategizedProperty._get_strategy k2 s' = (Ok a2, s2) →
       a2 ≠ a ∧ cached s2 k a ∧ cached s2 k2 a2).
Proof.
  intros Hwf Hrun. split.
  - rewrite get_strategy_unfold in Hrun.
    destruct (_strategies (self s)) as [d|] eqn:Hd; [|done].
    destruct (dict_get d k) as [a0|] eqn:Hk.
    + simplify_eq. destruct (Hwf d k a Hd Hk) as (inst & Hheap & ? & ? & ?).
      exists inst. repeat (split; [done|]). congruence.
    + destruct (StrategizedProperty._strategy_lookup _ _ _ _) as [cls|] eqn:Hcls; [|done].
      destruct (LoaderStrategy.__init__ _ _ _) as [inst|] eqn:Hinit; [|done].
      simplify_eq/=. exists inst. rewrite lookup_insert_eq.
      apply init_instance in Hinit as (<- & ? & ? & ? & ? & ? & ?). done.
  - intros k2 a2 s2 Hne Hrun2.
    pose proof (get_strategy_Ok_cached _ _ _ _ Hrun) as Hc.
    pose proof (get_strategy_Ok_cached _ _ _ _ Hrun2) as Hc2.
    pose proof (get_strategy_keeps_cached _ _ _ k2 Hc) as Hc'.
    rewrite Hrun2 in Hc'. simpl in Hc'.
    split; [|done].
    assert (cache_wf s2) as Hwf2.
    { pose proof (get_strategy_wf _ k Hwf) as H1. rewrite Hrun in H1. simpl in H1.
      apply (get_strategy_wf _ k2) in H1. by rewrite Hrun2 in H1. }
    destruct Hc' as (d & Hd & Hget), Hc2 as (d2 & Hd2 & Hget2). simplify_eq.
    destruct (Hwf2 d2 k a Hd2 Hget) as (inst & Hheap & Hkey & _).
    destruct (Hwf2 d2 k2 a2 Hd2 Hget2) as (inst2 & Hheap2 & Hkey2 & _).
    intros ->. congruence.
Qed.

(** ** Configuration of a property *)

Lemma get_strategy_flags s k :
  flags (StrategizedProperty._get_strategy k s).2 = flags s.
Proof. rewrite get_strategy_unfold. by repeat case_match. Qed.

Lemma do_init_flags s : flags (StrategizedProperty.do_init s).2 = flags s.
Proof.
  unfold StrategizedProperty.do_init. unfold_monad.
  set (s0 := set_self (with_strategies []) s).
  pose proof (get_strategy_flags s0 (strategy_key (self s0))) as Hflags.
  destruct (StrategizedProperty._get_strategy _ s0) as [[a|e] s1];
    unfold flags in *; simpl in *; congruence.
Qed.

Lemma init_unfold s :
  StrategizedProperty.init s =
    match StrategizedProperty.do_init (set_self (with_configure_started true) s) with
    | (Ok _, s') => (Ok tt, set_self (with_configure_finished true) s')
    | (Raise e, s') => (Raise e, s')
    end.
Proof. done. Qed.

Lemma run_op_flags o s :
  (_configure_started (self s) = true → _configure_started (self (run_op o s)) = true)
  ∧ (_configure_finished (self s) = true → _configure_finished (self (run_op o s)) = true).
Proof.
  destruct (query_time o) eqn:Hq.
  - split; intros Hs.
    + apply (run_op_query_time (fun s => _configure_started (self s) = true));
        try done.
      intros s0 k H0. by pose proof (get_strategy_flags s0 k) as [= -> _].
    + apply (run_op_query_time (fun s => _configure_finished (self s) = true));
        try done.
      intros s0 k H0. by pose proof (get_strategy_flags s0 k) as [= _ ->].
  - destruct o; try done; simpl.
    + rewrite init_unfold.
      pose proof (do_init_flags (set_self (with_configure_started true) s)) as Hflags.
      destruct (StrategizedProperty.do_init _) as [[[]|e] s1];
        injection Hflags as Hstarted Hfinished; simpl in *; split; congruence.
    + pose proof (do_init_flags s) as [= -> ->]. done.
Qed.

(** C6, as the code has it: after construction both flags are false;
    [init] sets [_configure_started], runs [do_init] and, when that returns,
    sets [_configure_finished]; and whatever operations follow, in whatever
    order, a flag that is true stays true.  [init] has no guard of its own:
    every call runs [do_init]. *)
Theorem configure_flags_monotonic :
  (∀ s, flags (MapperProperty.__init__ s).2 = (false, false))
  ∧ (∀ s,
       StrategizedProperty.init s =
         match StrategizedProperty.do_init
                 (set_self (with_configure_started true) s) with
         | (Ok _, s') => (Ok tt, set_self (with_configure_finished true) s')
         | (Raise e, s') => (Raise e, s')
         end)
  ∧ (∀ s r s',
       StrategizedProperty.init s = (r, s') →
       _configure_started (self s') = true
       ∧ (r = Ok tt → _configure_finished (self s') = true))
  ∧ (∀ ops s,
       (_configure_started (self s) = true →
        _configure_started (self (run_ops ops s)) = true)
       ∧ (_configure_finished (self s) = true →
          _configure_finished (self (run_ops ops s)) = true)).
Proof.
  split; [done|]. split; [apply init_unfold|]. split.
  - intros s r s'. rewrite init_unfold.
    pose proof (do_init_flags (set_self (with_configure_started true) s)) as Hflags.
    destruct (StrategizedProperty.do_init _) as [[[]|e] s1];
      injection Hflags as Hstarted Hfinished; intros [= <- <-]; simpl in *;
      split; done.
  - intros ops. induction ops as [|o ops IH]; intros s; simpl; [done|].
    destruct (run_op_flags o s) as [H1 H2], (IH (run_op o s)) as [H3 H4]. auto.
Qed.

(** ** Dispatch to the selected strategy *)

Lemma selects_strategy_None loader :
  no_strategy loader → StrategizedProperty.selects_strategy loader = None.
Proof.
  intros [->|(load & -> & [Hs|Hs])]; simpl; [done|by rewrite Hs..].
Qed.

Lemma selects_strategy_Some load k :
  load_strategy load = Some k → k ≠ [] →
  StrategizedProperty.selects_strategy (Some load) = Some k.
Proof. intros Hs Hne. simpl. rewrite Hs. by destruct k. Qed.

(** C7: both [setup] and [create_row_processor] go to the default strategy
    instance [self.strategy] when the probe of the context finds no load
    option or one that names no strategy, and otherwise to the instance
    [_get_strategy] returns for the key of the option; the strategy
    receives the arguments of the call and the load option.  When
    [_get_strategy] raises, so does the call, and no strategy is called. *)
Theorem setup_delegates (context : QueryContext) (query_entity : handle)
    (path : PathRegistry) (adapter : handle) (kwargs : pydict string pyvalue)
    (mapper : Mapper) (res populators : handle) (s : State) :
  let loader := StrategizedProperty._get_context_loader (self s) context path in
  (∀ a,
     no_strategy loader → strategy (self s) = Some a →
     StrategizedProperty.setup context query_entity path adapter kwargs s =
       (Ok tt, add_call (setup_query_call a context query_entity path loader
                           adapter kwargs) s)
     ∧ StrategizedProperty.create_row_processor context query_entity path
         mapper res adapter populators s =
       (Ok tt, add_call (create_row_processor_call a context query_entity path
                           loader mapper res adapter populators) s))
  ∧ (∀ load k a s',
       loader = Some load → load_strategy load = Some k → k ≠ [] →
       StrategizedProperty._get_strategy k s = (Ok a, s') →
       StrategizedProperty.setup context query_entity path adapter kwargs s =
         (Ok tt, add_call (setup_query_call a context query_entity path loader
                             adapter kwargs) s')
       ∧ StrategizedProperty.create_row_processor context query_entity path
           mapper res adapter populators s =
         (Ok tt, add_call (create_row_processor_call a context query_entity
                             path loader mapper res adapter populators) s'))
  ∧ (∀ load k e s',
       loader = Some load → load_strategy load = Some k → k ≠ [] →
       StrategizedProperty._get_strategy k s = (Raise e, s') →
       StrategizedProperty.setup context query_entity path adapter kwargs s =
         (Raise e, s)
       ∧ StrategizedProperty.create_row_processor context query_entity path
           mapper res adapter populators s = (Raise e, s)).
Proof.
  intros loader. split; [|split].
  - intros a Hnone%selects_strategy_None Ha.
    unfold StrategizedProperty.setup, StrategizedProperty.create_row_processor,
      LoaderStrategy.setup_query, LoaderStrategy.create_row_processor.
    unfold_monad. simpl. fold loader. by rewrite Hnone, Ha.
  - intros load k a s' Hload Hk Hne Hrun.
    pose proof (selects_strategy_Some load k Hk Hne) as Hsel.
    unfold StrategizedProperty.setup, StrategizedProperty.create_row_processor,
      LoaderStrategy.setup_query, LoaderStrategy.create_row_processor.
    unfold_monad. simpl. fold loader. by rewrite Hload, Hsel, Hrun.
  - intros load k e s' Hload Hk Hne Hrun.
    pose proof (selects_strategy_Some load k Hk Hne) as Hsel.
    pose proof (get_strategy_Raise _ _ _ _ Hrun) as ->.
    unfold StrategizedProperty.setup, StrategizedProperty.create_row_processor.
    unfold_monad. simpl. fold loader. by rewrite Hload, Hsel, Hrun.
Qed.

(** C8: [post_instrument_class] on a configured property calls
    [init_class_attribute] of the default strategy, with the mapper, exactly
    when the parent is not a non-primary mapper and the class manager of
    the mapper has no implementation for the key of the property;
    otherwise it does nothing. *)
Theorem post_instrument_class_guard (mapper : Mapper) (s : State)
    (parent_mapper : Mapper) (k : string) (a : addr) :
  parent (self s) = Some parent_mapper →
  key (self s) = Some k →
  strategy (self s) = Some a →
  StrategizedProperty.post_instrument_class mapper s =
    (Ok tt,
     if negb (non_primary parent_mapper)
        && negb (_attr_has_impl (class_manager mapper) k)
     then add_call (init_class_attribute_call a mapper) s
     else s).
Proof.
  intros Hparent Hkey Hstrat.
  unfold StrategizedProperty.post_instrument_class,
    LoaderStrategy.init_class_attribute. unfold_monad.
  rewrite Hparent. destruct (non_primary parent_mapper); simpl; [done|].
  rewrite Hkey. destruct (_attr_has_impl _ k); simpl; [done|].
  by rewrite Hstrat.
Qed.

(** ** Options *)

(** C9: on an option that derives from [LoaderOption] and does not define
    [process_compile_state_replaced_entities] itself, that method does to
    the compile state exactly what [process_compile_state] of the option
    does, whatever the replaced entities are. *)
Theorem replaced_entities_redispatch {CompileState : Type}
    (opt : OptionObject CompileState) (mapper_entities : list handle)
    (compile_state : CompileState) :
  option_base opt = LoaderOptionBase →
  own_process_compile_state_replaced_entities opt = None →
  process_compile_state_replaced_entities opt mapper_entities compile_state
    = process_compile_state opt compile_state.
Proof.
  intros Hbase Hown. unfold process_compile_state_replaced_entities.
  by rewrite Hown, Hbase.
Qed.

(** * The theorems at work on the example mapping *)

Import Example.

Lemma get_strategy_memoized_witness :
  let s' := (StrategizedProperty._get_strategy lazy_joined configured).2 in
  StrategizedProperty._get_strategy lazy_joined configured = (Ok 1, s')
  ∧ cached s' lazy_joined 1
  ∧ StrategizedProperty._get_strategy lazy_joined s' = (Ok 1, s').
Proof.
  intros s'.
  assert (StrategizedProperty._get_strategy lazy_joined configured = (Ok 1, s'))
    as Hrun by (vm_compute; reflexivity).
  split; [exact Hrun|].
  destruct (get_strategy_memoized lazy_joined configured) as [_ Hlater].
  destruct (Hlater 1 s' Hrun) as (Hcached & Hagain & _).
  split; [exact Hcached | exact Hagain].
Defined.

(** The tuple of the items in their insertion order is another key than
    the sorted tuple [strategy_for] registers, and [_strategy_lookup] does
    not find it. *)
Lemma strategy_lookup_takes_key_as_given :
  let kw := [("deferred", VBool false); ("instrument", VBool true)] in
  let other_order := [("instrument", VBool true); ("deferred", VBool false)] in
  let all :=
    _all_strategies
      (StrategizedProperty.strategy_for "ColumnProperty" kw "ColumnLoader"
         empty_state).2 in
  kw ≡ₚ other_order
  ∧ StrategizedProperty._strategy_lookup ColumnProperty name_column kw all
      = Ok "ColumnLoader"
  ∧ StrategizedProperty._strategy_lookup ColumnProperty name_column other_order all
      = Raise (LoaderStrategyException "ColumnProperty" 8 None None other_order).
Proof.
  intros kw other_order all. split; [apply perm_swap|].
  split; vm_compute; reflexivity.
Qed.

Lemma strategy_for_insertion_order_witness :
  let kw1 := [("instrument", VBool true); ("deferred", VBool false)] in
  let kw2 := [("deferred", VBool false); ("instrument", VBool true)] in
  NoDup kw1.*1 ∧ kw1 ≡ₚ kw2
  ∧ StrategizedProperty.strategy_for "ColumnProperty" kw1 "ColumnLoader" empty_state
    = StrategizedProperty.strategy_for "ColumnProperty" kw2 "ColumnLoader" empty_state
  ∧ StrategizedProperty._strategy_lookup ColumnProperty name_column (sorted_items kw2)
      (_all_strategies
         (StrategizedProperty.strategy_for "ColumnProperty" kw1 "ColumnLoader"
            empty_state).2)
    = Ok "ColumnLoader".
Proof.
  intros kw1 kw2.
  assert (NoDup kw1.*1) as Hnodup by (by apply (bool_decide_unpack _)).
  assert (kw1 ≡ₚ kw2) as Hperm by apply perm_swap.
  split; [exact Hnodup|]. split; [exact Hperm|].
  destruct (strategy_for_insertion_order "ColumnProperty" kw1 kw2 "ColumnLoader"
              empty_state Hnodup Hperm) as [Hsame Hfound].
  split; [exact Hsame|].
  apply Hfound; [reflexivity|]. by eexists.
Defined.

Lemma strategy_lookup_mro_witness :
  is_Some (parent addresses)
  ∧ StrategizedProperty._strategy_lookup DerivedRelationship addresses lazy_joined
      (_all_strategies registered) = Ok "JoinedLoader".
Proof.
  assert (is_Some (parent addresses)) as Hparent by (by eexists).
  split; [exact Hparent|].
  destruct (strategy_lookup_mro DerivedRelationship addresses lazy_joined
              (_all_strategies registered) Hparent) as (_ & _ & Hinherit).
  apply (Hinherit [] "RelationshipProperty"
           ["StrategizedProperty"; "MapperProperty"; "object"]).
  - vm_compute; reflexivity.
  - reflexivity.
  - constructor.
  - vm_compute; reflexivity.
Defined.

Lemma strategy_lookup_unregistered_witness :
  let k := [("deferred", VBool false); ("instrument", VBool true)] in
  is_Some (parent addresses)
  ∧ Forall (fun c => registered_for (_all_strategies registered) c k = None)
      (__mro__ RelationshipProperty)
  ∧ ∃ applies_to actual_strategy,
      StrategizedProperty._strategy_lookup RelationshipProperty addresses k
        (_all_strategies registered)
      = Raise (LoaderStrategyException "RelationshipProperty" 7
                 applies_to actual_strategy k).
Proof.
  intros k.
  assert (is_Some (parent addresses)) as Hparent by (by eexists).
  assert (Forall (fun c => registered_for (_all_strategies registered) c k = None)
            (__mro__ RelationshipProperty)) as Hnone.
  { repeat constructor. }
  split; [exact Hparent|]. split; [exact Hnone|].
  destruct (strategy_lookup_unregistered RelationshipProperty addresses k
              (_all_strategies registered) Hparent Hnone)
    as (applies_to & actual & Hraise & _).
  exists applies_to, actual. exact Hraise.
Defined.

(** A relationship-only key asked of a column property: the exception names
    the property type that owns the key. *)
Example column_with_relationship_key :
  StrategizedProperty._strategy_lookup ColumnProperty name_column lazy_joined
    (_all_strategies registered)
  = Raise (LoaderStrategyException "ColumnProperty" 8
             (Some "RelationshipProperty") (Some "JoinedLoader") lazy_joined).
Proof. vm_compute; reflexivity. Qed.

(** A second [init] returns, with another default strategy instance. *)
Lemma init_again_replaces_default_strategy :
  (StrategizedProperty.init configured).1 = Ok tt
  ∧ (StrategizedProperty.init configured).2 ≠ configured
  ∧ strategy (self configured) = Some 0
  ∧ strategy (self (StrategizedProperty.init configured).2) = Some 1.
Proof.
  split; [vm_compute; reflexivity|]. split.
  - intros Heq. apply (f_equal (fun s => strategy (self s))) in Heq.
    vm_compute in Heq. discriminate Heq.
  - split; vm_compute; reflexivity.
Qed.

Lemma post_instrument_class_guard_witness :
  parent (self configured) = Some user_mapper
  ∧ key (self configured) = Some "addresses"
  ∧ strategy (self configured) = Some 0
  ∧ StrategizedProperty.post_instrument_class user_mapper configured
    = (Ok tt, add_call (init_class_attribute_call 0 user_mapper) configured).
Proof.
  assert (parent (self configured) = Some user_mapper) as Hparent
    by (vm_compute; reflexivity).
  assert (key (self configured) = Some "addresses") as Hkey
    by (vm_compute; reflexivity).
  assert (strategy (self configured) = Some 0) as Hstrat
    by (vm_compute; reflexivity).
  split; [exact Hparent|]. split; [exact Hkey|]. split; [exact Hstrat|].
  exact (post_instrument_class_guard user_mapper configured user_mapper
           "addresses" 0 Hparent Hkey Hstrat).
Defined.

Lemma replaced_entities_redispatch_witness :
  option_base joinedload = LoaderOptionBase
  ∧ own_process_compile_state_replaced_entities joinedload = None
  ∧ process_compile_state_replaced_entities joinedload [4; 5] ["select"]
    = process_compile_state joinedload ["select"].
Proof.
  split; [reflexivity|]. split; [reflexivity|].
  apply (replaced_entities_redispatch joinedload [4; 5] ["select"]);
    reflexivity.
Defined.

Lemma strategy_instance_of_key_witness :
  let s' := (StrategizedProperty._get_strategy lazy_true configured).2 in
  cache_wf configured
  ∧ StrategizedProperty._get_strategy lazy_true configured = (Ok 1, s')
  ∧ ∃ inst, heap s' !! 1 = Some inst ∧ ls_strategy_key inst = lazy_true.
Proof.
  intros s'.
  assert (cache_wf configured) as Hwf by apply init_wf.
  assert (StrategizedProperty._get_strategy lazy_true configured = (Ok 1, s'))
    as Hrun by (vm_compute; reflexivity).
  split; [exact Hwf|]. split; [exact Hrun|].
  destruct (strategy_instance_of_key lazy_true configured s' 1 Hwf Hrun)
    as [(inst & Hheap & Hkey & _) _].
  exists inst. split; [exact Hheap | exact Hkey].
Defined.

(** [lazy="select"] and [lazy=True] both resolve to [LazyLoader], and each
    has an instance of its own. *)
Example two_keys_one_class :
  let s1 := (StrategizedProperty._get_strategy lazy_true configured).2 in
  StrategizedProperty._get_strategy lazy_select configured = (Ok 0, configured)
  ∧ StrategizedProperty._get_strategy lazy_true configured = (Ok 1, s1)
  ∧ strategy_class <$> heap s1 !! 0 = Some "LazyLoader"
  ∧ strategy_class <$> heap s1 !! 1 = Some "LazyLoader".
Proof. repeat split; vm_compute; reflexivity. Qed.

(** Default, then wildcard, then exact path: each option added takes over
    from the tier below. *)
Example context_tiers :
  let default_opt := {| load_id := 13; load_strategy := Some lazy_select; local_opts := [] |} in
  let wildcard_opt := {| load_id := 14; load_strategy := Some lazy_true; local_opts := [] |} in
  let tier1 := [(_default_path_loader_key search_path, default_opt)] in
  let tier2 := dict_set tier1 (_wildcard_path_loader_key search_path) wildcard_opt in
  let tier3 := dict_set tier2 (_loader_key search_path) joined_option in
  StrategizedProperty._get_context_loader addresses (context_with []) path = None
  ∧ StrategizedProperty._get_context_loader addresses (context_with tier1) path
    = Some default_opt
  ∧ StrategizedProperty._get_context_loader addresses (context_with tier2) path
    = Some wildcard_opt
  ∧ StrategizedProperty._get_context_loader addresses (context_with tier3) path
    = Some joined_option.
Proof. repeat split; vm_compute; reflexivity. Qed.

Lemma context_loader_precedence_witness :
  let opts :=
    [ (_default_path_loader_key search_path, defaultload_option);
      (_loader_key search_path, joined_option) ] in
  StrategizedProperty._get_context_loader addresses (context_with opts) path
  = Some joined_option.
Proof.
  intros opts.
  destruct (context_loader_precedence addresses (context_with opts) path)
    as [Hexact _].
  apply Hexact. vm_compute; reflexivity.
Defined.

(** Without an option the query goes to the default strategy at address 0;
    with [joinedload] on the exact path it goes to a joined loader made for
    the occasion, and the default strategy is not called. *)
Lemma setup_delegates_witness :
  let plain := context_with [] in
  let joined := context_with [(_loader_key search_path, joined_option)] in
  calls (StrategizedProperty.setup plain 2 path 9 [] configured).2
    = [setup_query_call 0 plain 2 path None 9 []]
  ∧ calls (StrategizedProperty.setup joined 2 path 9 [] configured).2
    = [setup_query_call 1 joined 2 path (Some joined_option) 9 []].
Proof.
  intros plain joined. split.
  - destruct (setup_delegates plain 2 path 9 [] user_mapper 0 0 configured)
      as [Hdefault _].
    assert (strategy (self configured) = Some 0) as Hstrat
      by (vm_compute; reflexivity).
    destruct (Hdefault 0 (or_introl eq_refl) Hstrat) as [-> _].
    vm_compute; reflexivity.
  - destruct (setup_delegates joined 2 path 9 [] user_mapper 0 0 configured)
      as (_ & Hselected & _).
    assert (StrategizedProperty._get_strategy lazy_joined configured
            = (Ok 1, (StrategizedProperty._get_strategy lazy_joined configured).2))
      as Hrun by (vm_compute; reflexivity).
    assert (lazy_joined ≠ []) as Hne by discriminate.
    destruct (Hselected joined_option lazy_joined 1 _ eq_refl eq_refl Hne Hrun)
      as [-> _].
    vm_compute; reflexivity.
Defined.

(** Flags stay set across a second [init], failed lookups and queries. *)
Example flags_after_operations :
  flags empty_state = (false, false)
  ∧ flags configured = (true, true)
  ∧ flags (run_ops [ op_get_strategy [("no", VStr "such")]; op_init;
                     op_setup (context_with []) 2 path 9 [];
                     op_post_instrument_class user_mapper ] configured)
    = (true, true).
Proof. repeat split; vm_compute; reflexivity. Qed.

(** * Further properties *)

(** ** Registration *)

Lemma registered_for_strategy_for cls kw dec_cls s c k :
  registered_for
    (_all_strategies (StrategizedProperty.strategy_for cls kw dec_cls s).2) c k
  = if decide (c = cls ∧ k = sorted_items kw) then Some dec_cls
    else registered_for (_all_strategies s) c k.
Proof.
  unfold StrategizedProperty.strategy_for, registered_for. unfold_monad. simpl.
  destruct (decide (cls = c)) as [<-|Hc].
  - rewrite dict_get_set_eq.
    destruct (decide (sorted_items kw = k)) as [<-|Hk].
    + rewrite dict_get_set_eq. by rewrite decide_True.
    + rewrite dict_get_set_ne by done.
      rewrite decide_False by (intros [_ ?]; congruence).
      by destruct (dict_get (_all_strategies s) cls).
  - rewrite dict_get_set_ne by done.
    by rewrite decide_False by (intros [? _]; congruence).
Qed.

(** X1: registering a strategy class makes it what the registry of the
    class has for the sorted key, replacing what was there, and leaves what
    every other class and every other key has as it was. *)
Theorem strategy_for_registers (cls : pyclass) (kw : pydict string pyvalue)
    (dec_cls : pyclass) (s : State) :
  let all' :=
    _all_strategies (StrategizedProperty.strategy_for cls kw dec_cls s).2 in
  registered_for all' cls (sorted_items kw) = Some dec_cls
  ∧ ∀ c k, (c, k) ≠ (cls, sorted_items kw) →
      registered_for all' c k = registered_for (_all_strategies s) c k.
Proof.
  intros all'. unfold all'. split.
  - rewrite registered_for_strategy_for. by rewrite decide_True.
  - intros c k Hne. rewrite registered_for_strategy_for.
    rewrite decide_False; [done|]. intros [-> ->]. by apply Hne.
Qed.

Lemma mro_lookup_ext all1 all2 mro k :
  (∀ c, registered_for all1 c k = registered_for all2 c k) →
  StrategizedProperty.mro_lookup all1 mro k = StrategizedProperty.mro_lookup all2 mro k.
Proof.
  intros Hsame. induction mro as [|c mro IH]; [done|].
  by rewrite !mro_lookup_cons, Hsame, IH.
Qed.

Lemma strategy_lookup_Ok cls p k all sc :
  StrategizedProperty._strategy_lookup cls p k all = Ok sc ↔
  is_Some (parent p) ∧ StrategizedProperty.mro_lookup all (__mro__ cls) k = Some sc.
Proof.
  unfold StrategizedProperty._strategy_lookup.
  destruct (parent p) as [m|].
  - destruct (StrategizedProperty.mro_lookup all (__mro__ cls) k) as [sc'|].
    + split; [intros [= ->]; by eauto | intros [_ [= ->]]; done].
    + destruct (StrategizedProperty.scan_all all k). split; [done|by intros [_ ?]].
  - split; [done|]. by intros [[? ?] _].
Qed.

(** X2: which of two registrations under different (class, key) pairs is
    made first makes no difference to any lookup that succeeds. *)
Theorem registration_order_irrelevant (clsA clsB : pyclass)
    (kwA kwB : pydict string pyvalue) (decA decB : pyclass) (s : State)
    (cls : PropertyClass) (p : StrategizedProperty) (k : StrategyKey)
    (strat_cls : pyclass) :
  (clsA, sorted_items kwA) ≠ (clsB, sorted_items kwB) →
  let a_then_b :=
    (StrategizedProperty.strategy_for clsB kwB decB
       (StrategizedProperty.strategy_for clsA kwA decA s).2).2 in
  let b_then_a :=
    (StrategizedProperty.strategy_for clsA kwA decA
       (StrategizedProperty.strategy_for clsB kwB decB s).2).2 in
  StrategizedProperty._strategy_lookup cls p k (_all_strategies a_then_b) = Ok strat_cls
  ↔ StrategizedProperty._strategy_lookup cls p k (_all_strategies b_then_a) = Ok strat_cls.
Proof.
  intros Hne a_then_b b_then_a. rewrite !strategy_lookup_Ok.
  rewrite (mro_lookup_ext (_all_strategies a_then_b) (_all_strategies b_then_a));
    [done|].
  intros c. unfold a_then_b, b_then_a. rewrite !registered_for_strategy_for.
  repeat case_decide; try done. destruct_and!. simplify_eq.
  exfalso. apply Hne. congruence.
Qed.

(** ** Invariants of the registry *)

Lemma Forall_dict_set {K V} `{EqDecision K} (P : K * V → Prop)
    (d : list (K * V)) k v :
  Forall P d → (∀ k', P (k', v)) ∨ P (k, v) → Forall P (dict_set d k v).
Proof.
  intros Hd Hnew. induction Hd as [|[k' v'] d Hkv Hd IH]; simpl.
  - repeat constructor. by destruct Hnew.
  - destruct (decide (k = k')) as [<-|Hne]; constructor; try done.
    by destruct Hnew.
Qed.

Lemma dict_get_Forall {K V} `{EqDecision K} (P : K * V → Prop)
    (d : list (K * V)) k v :
  Forall P d → dict_get d k = Some v → P (k, v).
Proof.
  intros Hd Hget%dict_get_elem_of. by eapply Forall_forall in Hd.
Qed.

Lemma strategy_for_keys_sorted cls kw dec_cls s :
  keys_sorted (_all_strategies s) →
  keys_sorted (_all_strategies (StrategizedProperty.strategy_for cls kw dec_cls s).2).
Proof.
  intros Hsorted. unfold StrategizedProperty.strategy_for. unfold_monad. simpl.
  apply Forall_dict_set; [done|]. right. simpl.
  apply Forall_dict_set.
  - destruct (dict_get (_all_strategies s) cls) as [own|] eqn:Hown; [|constructor].
    apply (dict_get_Forall _ _ _ _ Hsorted Hown).
  - right. simpl. apply Sorted_merge_sort, _.
Qed.

Lemma strategy_for_keys_recorded cls kw dec_cls s :
  keys_recorded s →
  keys_recorded (StrategizedProperty.strategy_for cls kw dec_cls s).2.
Proof.
  intros Hrec c k dec. rewrite registered_for_strategy_for.
  unfold StrategizedProperty.strategy_for. unfold_monad. simpl.
  case_decide as Hck.
  - intros [= <-]. destruct Hck as [_ ->]. rewrite dict_get_set_eq.
    eexists. split; [done|]. apply elem_of_app. right. left.
  - intros Hreg. destruct (Hrec c k dec Hreg) as (keys & Hkeys & Hin).
    destruct (decide (dec_cls = dec)) as [->|Hdec].
    + rewrite dict_get_set_eq, Hkeys. eexists. split; [done|].
      apply elem_of_app. by left.
    + rewrite dict_get_set_ne by done. by exists keys.
Qed.

Lemma do_init_state s :
  (StrategizedProperty.do_init s).2 =
    let s0 := set_self (with_strategies []) s in
    match StrategizedProperty._get_strategy (strategy_key (self s0)) s0 with
    | (Ok a, s1) => set_self (with_strategy a) s1
    | (Raise _, s1) => s1
    end.
Proof.
  unfold StrategizedProperty.do_init. unfold_monad. simpl.
  by destruct (StrategizedProperty._get_strategy _ _) as [[a|e] s1].
Qed.

(** What any operation can do to the state, as far as a property [P] of
    states goes. *)
Lemma run_op_cases (P : State → Prop) (o : Op) (s : State) :
  (∀ s c, P s → P (add_call c s)) →
  (∀ s k, P s → P (StrategizedProperty._get_strategy k s).2) →
  (∀ s f, P s → P (set_self f s)) →
  (∀ s cls kw dec_cls, P s → P (StrategizedProperty.strategy_for cls kw dec_cls s).2) →
  P s → P (run_op o s).
Proof.
  intros Hcall Hget Hself Hreg Hs.
  assert (∀ s, P s → P (StrategizedProperty.do_init s).2) as Hdo_init.
  { intros s0 Hs0. rewrite do_init_state. simpl.
    pose proof (Hget _ (strategy_key (self s0)) (Hself _ (with_strategies []) Hs0)) as H1.
    destruct (StrategizedProperty._get_strategy _ _) as [[a|e] s1]; simpl in *; auto. }
  destruct o as [m i| | |c0 kw dc|k0|ctx qe pth ad kwargs|ctx qe pth mp r ad pops|mp];
    simpl.
  - by apply Hself.
  - rewrite init_unfold.
    pose proof (Hdo_init _ (Hself _ (with_configure_started true) Hs)) as H1.
    destruct (StrategizedProperty.do_init _) as [[[]|e] s1]; simpl in *; auto.
  - by apply Hdo_init.
  - by apply Hreg.
  - by apply Hget.
  - destruct (setup_state ctx qe pth ad kwargs s)
      as [->|[[c ->]|[[k ->]|(k & c & ->)]]]; auto.
  - destruct (create_row_processor_state ctx qe pth mp r ad pops s)
      as [->|[[c ->]|[[k ->]|(k & c & ->)]]]; auto.
  - destruct (post_instrument_class_state mp s) as [->|[c ->]]; auto.
Qed.

Lemma run_ops_cases (P : State → Prop) (ops : list Op) (s : State) :
  (∀ s c, P s → P (add_call c s)) →
  (∀ s k, P s → P (StrategizedProperty._get_strategy k s).2) →
  (∀ s f, P s → P (set_self f s)) →
  (∀ s cls kw dec_cls, P s → P (StrategizedProperty.strategy_for cls kw dec_cls s).2) →
  P s → P (run_ops ops s).
Proof.
  intros Hcall Hget Hself Hreg. revert s.
  induction ops as [|o ops IH]; intros s Hs; simpl; [done|].
  by apply IH, run_op_cases.
Qed.

Lemma get_strategy_frame s k :
  let s' := (StrategizedProperty._get_strategy k s).2 in
  _all_strategies s' = _all_strategies s
  ∧ _strategy_keys s' = _strategy_keys s
  ∧ calls s' = calls s.
Proof. rewrite get_strategy_unfold. by repeat case_match. Qed.

(** X3: in a registry filled by [strategy_for] alone, starting from the
    empty one, every key is a sorted tuple; a key tuple that is not sorted
    by name is found for no class, and its lookup raises with no property
    type to point to. *)
Theorem unsorted_key_never_found (ops : list Op) (s0 : State)
    (cls : PropertyClass) (p : StrategizedProperty) (k : StrategyKey) :
  _all_strategies s0 = [] →
  is_Some (parent p) →
  ¬ Sorted item_le k →
  StrategizedProperty._strategy_lookup cls p k (_all_strategies (run_ops ops s0))
  = Raise (LoaderStrategyException (cls_name cls) (prop_id p) None None k).
Proof.
  intros Hempty [m Hm] Hunsorted.
  assert (keys_sorted (_all_strategies (run_ops ops s0))) as Hsorted.
  { apply (run_ops_cases (fun s => keys_sorted (_all_strategies s))); try done.
    - intros s k' Hs. by destruct (get_strategy_frame s k') as [-> _].
    - intros. by apply strategy_for_keys_sorted.
    - rewrite Hempty. constructor. }
  set (all := _all_strategies (run_ops ops s0)) in *.
  assert (Forall (fun item : pyclass * pydict StrategyKey pyclass =>
                    dict_get item.2 k = None) all) as Hnone.
  { eapply Forall_impl; [exact Hsorted|]. intros [c d] Hd. simpl in *.
    destruct (dict_get d k) as [dec|] eqn:Hget; [|done].
    destruct Hunsorted. apply (dict_get_Forall _ _ _ _ Hd Hget). }
  unfold StrategizedProperty._strategy_lookup. rewrite Hm.
  assert (StrategizedProperty.mro_lookup all (__mro__ cls) k = None) as ->.
  { apply mro_lookup_None, Forall_forall. intros c _. unfold registered_for.
    destruct (dict_get all c) as [d|] eqn:Hc; [|done].
    apply (dict_get_Forall _ _ _ _ Hnone Hc). }
  pose proof (scan_all_spec all k) as Hscan.
  destruct (StrategizedProperty.scan_all all k) as [[pt|] [sc|]]; try done.
  destruct Hscan as (before & strats & after & Hall & _ & Hget).
  rewrite Hall in Hnone. apply Forall_app in Hnone as [_ Hnone].
  apply Forall_cons in Hnone as [Hnone _]. simpl in Hnone. congruence.
Qed.

(** X4: whatever is registered and in whatever order, starting from the
    empty registry, the strategy class the registry of a class has for a
    key lists that key among its [_strategy_keys]. *)
Theorem strategy_keys_recorded (ops : list Op) (s0 : State)
    (c : pyclass) (k : StrategyKey) (dec_cls : pyclass) :
  _all_strategies s0 = [] →
  registered_for (_all_strategies (run_ops ops s0)) c k = Some dec_cls →
  ∃ keys,
    dict_get (_strategy_keys (run_ops ops s0)) dec_cls = Some keys ∧ k ∈ keys.
Proof.
  intros Hempty.
  assert (keys_recorded (run_ops ops s0)) as Hrec; [|by apply Hrec].
  apply (run_ops_cases keys_recorded); try done.
  - intros s k' Hs c' k0 dec.
    destruct (get_strategy_frame s k') as (-> & -> & _). apply Hs.
  - intros. by apply strategy_for_keys_recorded.
  - intros c' k' dec. unfold registered_for. by rewrite Hempty.
Qed.

(** ** The heap of strategy instances *)


(** ** Failure of [_get_strategy] *)

(** X6: when [_get_strategy] raises, the key was not cached, nothing has
    changed, and the exception tells why: the cache was never set up, the
    property has no parent or no key, or no class of the method resolution
    order registers the key. *)
Theorem get_strategy_failure (k : StrategyKey) (s s' : State) (e : exn) :
  StrategizedProperty._get_strategy k s = (Raise e, s') →
  s' = s
  ∧ (∀ a, ¬ cached s k a)
  ∧ ((_strategies (self s) = None ∧ e = AttributeError "_strategies")
     ∨ (parent (self s) = None ∧ e = AttributeError "parent")
     ∨ (key (self s) = None ∧ e = AttributeError "key")
     ∨ (Forall (fun c => registered_for (_all_strategies s) c k = None)
          (__mro__ (prop_class (self s)))
        ∧ ∃ applies_to actual_strategy,
            e = LoaderStrategyException (cls_name (prop_class (self s)))
                  (prop_id (self s)) applies_to actual_strategy k)).
Proof.
  rewrite get_strategy_unfold.
  destruct (_strategies (self s)) as [d|] eqn:Hd.
  2:{ intros [= <- <-]. split; [done|]. split; [|by left].
      intros a (d & Hd' & _). congruence. }
  destruct (dict_get d k) as [a0|] eqn:Hk; [done|].
  assert (∀ a, ¬ cached s k a) as Hmiss.
  { intros a (d' & Hd' & Hget). congruence. }
  unfold StrategizedProperty._strategy_lookup, LoaderStrategy.__init__.
  destruct (parent (self s)) as [m|] eqn:Hparent.
  2:{ intros [= <- <-]. split; [done|]. split; [done|]. right. by left. }
  destruct (StrategizedProperty.mro_lookup _ _ _) as [cls|] eqn:Hmro.
  - destruct (key (self s)) eqn:Hkey; [done|].
    intros [= <- <-]. split; [done|]. split; [done|]. right. right. by left.
  - destruct (StrategizedProperty.scan_all _ _) as [applies_to actual].
    intros [= <- <-]. split; [done|]. split; [done|]. right. right. right.
    split; [by apply mro_lookup_None|]. by exists applies_to, actual.
Qed.

(** ** What [init] establishes *)

Lemma init_steps s :
  StrategizedProperty.init s =
    match StrategizedProperty._get_strategy (strategy_key (self s))
            (set_self (with_strategies [])
               (set_self (with_configure_started true) s)) with
    | (Ok a, s1) =>
        (Ok tt, set_self (with_configure_finished true)
                  (set_self (with_strategy a) s1))
    | (Raise e, s1) => (Raise e, s1)
    end.
Proof.
  rewrite init_unfold. unfold StrategizedProperty.do_init. unfold_monad.
  cbn [self set_self strategy_key with_strategies with_configure_started].
  by destruct (StrategizedProperty._get_strategy _ _) as [[a|e] s1].
Qed.

Lemma get_strategy_constructs k s d m name cls :
  _strategies (self s) = Some d →
  dict_get d k = None →
  parent (self s) = Some m →
  key (self s) = Some name →
  StrategizedProperty.mro_lookup (_all_strategies s)
    (__mro__ (prop_class (self s))) k = Some cls →
  StrategizedProperty._get_strategy k s =
    (Ok (fresh (dom (heap s))),
     set_self (with_strategies (dict_set d k (fresh (dom (heap s)))))
       (set_heap
          (<[fresh (dom (heap s)) :=
               {| strategy_class := cls; parent_property := prop_id (self s);
                  is_class_level := false; ls_parent := m; ls_key := name;
                  ls_strategy_key := k; strategy_opts := dict_of_pairs k |}]>
             (heap s)) s)).
Proof.
  intros Hd Hmiss Hparent Hkey Hmro. rewrite get_strategy_unfold, Hd, Hmiss.
  unfold StrategizedProperty._strategy_lookup, LoaderStrategy.__init__.
  by rewrite Hparent, Hmro, Hkey.
Qed.

Lemma get_strategy_unregistered k s d m :
  _strategies (self s) = Some d →
  dict_get d k = None →
  parent (self s) = Some m →
  Forall (fun c => registered_for (_all_strategies s) c k = None)
    (__mro__ (prop_class (self s))) →
  ∃ applies_to actual_strategy,
    StrategizedProperty._get_strategy k s =
      (Raise (LoaderStrategyException (cls_name (prop_class (self s)))
                (prop_id (self s)) applies_to actual_strategy k), s).
Proof.
  intros Hd Hmiss Hparent Hnone%mro_lookup_None.
  rewrite get_strategy_unfold, Hd, Hmiss.
  unfold StrategizedProperty._strategy_lookup. rewrite Hparent, Hnone.
  destruct (StrategizedProperty.scan_all _ _) as [applies_to actual].
  by exists applies_to, actual.
Qed.

(** X7: [init] on a property that has its parent and key, and whose default
    key is registered for its class or an ancestor, returns; both flags are
    then set, the cache holds the default key alone, and [strategy] is the
    instance cached under it, a new object of the registered class. *)
Theorem init_configures (s : State) (m : Mapper) (name : string) (cls : pyclass) :
  parent (self s) = Some m →
  key (self s) = Some name →
  StrategizedProperty.mro_lookup (_all_strategies s)
    (__mro__ (prop_class (self s))) (strategy_key (self s)) = Some cls →
  ∃ a s',
    StrategizedProperty.init s = (Ok tt, s')
    ∧ flags s' = (true, true)
    ∧ strategy (self s') = Some a
    ∧ _strategies (self s') = Some [(strategy_key (self s), a)]
    ∧ heap s !! a = None
    ∧ strategy_class <$> heap s' !! a = Some cls.
Proof.
  intros Hparent Hkey Hmro.
  rewrite init_steps.
  rewrite (get_strategy_constructs _ _ [] m name cls); try done.
  eexists _, _. split; [done|]. repeat split.
  - apply (not_elem_of_dom (D:=gset addr)), is_fresh.
  - cbn [heap set_self set_heap]. by rewrite lookup_insert_eq.
Qed.

(** X8: [init] on a property whose default key no class of its method
    resolution order registers raises [LoaderStrategyException]; the
    property is left started but not finished, with an empty cache, and
    with the [strategy] and the heap it had. *)
Theorem init_unregistered_default (s : State) (m : Mapper) :
  parent (self s) = Some m →
  Forall (fun c => registered_for (_all_strategies s) c (strategy_key (self s)) = None)
    (__mro__ (prop_class (self s))) →
  ∃ applies_to actual_strategy s',
    StrategizedProperty.init s =
      (Raise (LoaderStrategyException (cls_name (prop_class (self s)))
                (prop_id (self s)) applies_to actual_strategy
                (strategy_key (self s))), s')
    ∧ _configure_started (self s') = true
    ∧ _configure_finished (self s') = _configure_finished (self s)
    ∧ _strategies (self s') = Some []
    ∧ strategy (self s') = strategy (self s)
    ∧ heap s' = heap s.
Proof.
  intros Hparent Hnone.
  rewrite init_steps.
  destruct (get_strategy_unregistered (strategy_key (self s))
              (set_self (with_strategies [])
                 (set_self (with_configure_started true) s)) [] m)
    as (applies_to & actual & ->); try done.
  by eexists _, _, _.
Qed.

Lemma init_Ok_inv s s' :
  StrategizedProperty.init s = (Ok tt, s') →
  ∃ a s1,
    StrategizedProperty._get_strategy (strategy_key (self s))
      (set_self (with_strategies []) (set_self (with_configure_started true) s))
      = (Ok a, s1)
    ∧ s' = set_self (with_configure_finished true) (set_self (with_strategy a) s1).
Proof.
  rewrite init_steps.
  destruct (StrategizedProperty._get_strategy _ _) as [[a|e] s1] eqn:Hrun; [|done].
  intros [= <-]. by exists a, s1.
Qed.

Lemma run_ops_keep_strategy ops s a :
  forallb query_time ops = true →
  strategy (self s) = Some a → strategy (self (run_ops ops s)) = Some a.
Proof.
  revert s. induction ops as [|o ops IH]; intros s; simpl; [done|].
  intros [Ho Hops]%andb_true_iff Hs. apply IH; [done|].
  apply (run_op_query_time (fun s => strategy (self s) = Some a)); try done.
  intros s0 k H0. rewrite get_strategy_unfold. by repeat case_match.
Qed.

(** X9: once [init] has returned, and through whatever query-time
    operations, the default key of the property resolves to the very
    instance [strategy] holds, and resolving it changes nothing: an option
    that names the default key is served by the default strategy. *)
Theorem default_key_served_by_default (s s' : State) (ops : list Op) :
  StrategizedProperty.init s = (Ok tt, s') →
  forallb query_time ops = true →
  ∃ a,
    strategy (self (run_ops ops s')) = Some a
    ∧ StrategizedProperty._get_strategy (strategy_key (self s)) (run_ops ops s')
      = (Ok a, run_ops ops s').
Proof.
  intros (a & s1 & Hrun%get_strategy_Ok_cached & ->)%init_Ok_inv Hops.
  exists a. split.
  - by apply run_ops_keep_strategy.
  - by apply get_strategy_hit, run_ops_keep_cached.
Qed.

(** ** The two phases of a query *)




(** X12: a load option at the exact-path key that names no strategy ends
    the search: whatever the wildcard and default keys hold, the query goes
    to the default strategy, which is handed that option. *)
Theorem strategyless_exact_option_shadows (context : QueryContext)
    (query_entity : handle) (path : PathRegistry) (adapter : handle)
    (kwargs : pydict string pyvalue) (s : State) (exact : Load) (a : addr) :
  dict_get (attributes context)
    (_loader_key (path_getitem path (prop_id (self s)))) = Some exact →
  load_strategy exact = None →
  strategy (self s) = Some a →
  StrategizedProperty.setup context query_entity path adapter kwargs s =
    (Ok tt,
     add_call (setup_query_call a context query_entity path (Some exact)
                 adapter kwargs) s).
Proof.
  intros Hexact Hnone Hstrat.
  unfold StrategizedProperty.setup, LoaderStrategy.setup_query,
    StrategizedProperty._get_context_loader.
  unfold_monad. simpl. unfold dict_contains. rewrite Hexact. simpl.
  by rewrite Hnone, Hstrat.
Qed.

(** X13: a property that was constructed but never initialised cannot be
    queried: [setup] raises [AttributeError], for [strategy] when the
    context selects no strategy and for [_strategies] when it selects one,
    and calls nothing. *)
Theorem setup_before_init (context : QueryContext) (query_entity : handle)
    (path : PathRegistry) (adapter : handle) (kwargs : pydict string pyvalue)
    (s : State) :
  _strategies (self s) = None →
  strategy (self s) = None →
  StrategizedProperty.setup context query_entity path adapter kwargs s =
    (Raise (AttributeError
              (match StrategizedProperty.selects_strategy
                       (StrategizedProperty._get_context_loader (self s) context path)
               with Some _ => "_strategies" | None => "strategy" end)), s).
Proof.
  intros Hcache Hstrat.
  unfold StrategizedProperty.setup, StrategizedProperty._get_strategy.
  unfold_monad. simpl.
  destruct (StrategizedProperty.selects_strategy _); by rewrite ?Hcache, ?Hstrat.
Qed.

(** X14: a load option that names a key no class of the method resolution
    order of the property registers is fatal to [setup]: it raises
    [LoaderStrategyException], the default strategy is not called in its
    place, and the state is left as it was. *)
Theorem setup_unregistered_option (context : QueryContext)
    (query_entity : handle) (path : PathRegistry) (adapter : handle)
    (kwargs : pydict string pyvalue) (s : State) (load : Load)
    (k : StrategyKey) (d : pydict StrategyKey addr) (m : Mapper) :
  StrategizedProperty._get_context_loader (self s) context path = Some load →
  load_strategy load = Some k → k ≠ [] →
  _strategies (self s) = Some d → dict_get d k = None →
  parent (self s) = Some m →
  Forall (fun c => registered_for (_all_strategies s) c k = None)
    (__mro__ (prop_class (self s))) →
  ∃ applies_to actual_strategy,
    StrategizedProperty.setup context query_entity path adapter kwargs s =
      (Raise (LoaderStrategyException (cls_name (prop_class (self s)))
                (prop_id (self s)) applies_to actual_strategy k), s).
Proof.
  intros Hload Hk Hne Hd Hmiss Hparent Hnone.
  destruct (get_strategy_unregistered k s d m Hd Hmiss Hparent Hnone)
    as (applies_to & actual & Hrun).
  exists applies_to, actual.
  unfold StrategizedProperty.setup. unfold_monad. simpl.
  by rewrite Hload, (selects_strategy_Some load k Hk Hne), Hrun.
Qed.

(** ** The options of a strategy instance *)

Lemma dict_get_Permutation {K V} `{EqDecision K} (d1 d2 : list (K * V)) k :
  NoDup d1.*1 → d1 ≡ₚ d2 → dict_get d1 k = dict_get d2 k.
Proof.
  intros Hnodup Hperm.
  assert (NoDup d2.*1) as Hnodup2 by (by rewrite <-Hperm).
  destruct (dict_get d1 k) as [v|] eqn:H1.
  - symmetry. apply dict_get_NoDup; [done|].
    rewrite <-Hperm. by apply dict_get_elem_of.
  - destruct (dict_get d2 k) as [v|] eqn:H2; [|done].
    apply dict_get_elem_of in H2. rewrite <-Hperm in H2.
    apply (dict_get_NoDup _ _ _ Hnodup) in H2. congruence.
Qed.

(** X15: a strategy made for the key of some keyword arguments has, in
    [strategy_opts], each keyword with the value it was given. *)
Theorem strategy_opts_of_keywords (cls : pyclass) (p : StrategizedProperty)
    (kw : pydict string pyvalue) (inst : LoaderStrategy) (name : string) :
  NoDup kw.*1 →
  LoaderStrategy.__init__ cls p (sorted_items kw) = Ok inst →
  dict_get (strategy_opts inst) name = dict_get kw name.
Proof.
  intros Hnodup (_ & _ & _ & _ & _ & _ & ->)%init_instance.
  assert (NoDup (sorted_items kw).*1) as Hsorted
    by (by rewrite sorted_items_Permutation).
  rewrite dict_of_pairs_NoDup by done.
  apply dict_get_Permutation; [done|apply sorted_items_Permutation].
Qed.

(** ** Plain mapper properties *)

(** X16: for a property whose [do_init] is the empty one of
    [MapperProperty], a second [init] changes nothing. *)
Theorem plain_init_idempotent (s : State) :
  let s1 := (MapperProperty.init MapperProperty.do_init s).2 in
  flags s1 = (true, true)
  ∧ MapperProperty.init MapperProperty.do_init s1 = (Ok tt, s1).
Proof. done. Qed.

(** ** Options that are not loader options *)

(** X17: on an option that derives from [CompileStateOption] or
    [CriteriaOption] and does not define
    [process_compile_state_replaced_entities] itself, that method leaves the
    compile state as it is, whatever [process_compile_state] of the option
    does. *)
Theorem replaced_entities_inert {CompileState : Type}
    (opt : OptionObject CompileState) (mapper_entities : list handle)
    (compile_state : CompileState) :
  option_base opt ≠ LoaderOptionBase →
  own_process_compile_state_replaced_entities opt = None →
  process_compile_state_replaced_entities opt mapper_entities compile_state
    = (Ok tt, compile_state).
Proof.
  intros Hbase Hown. unfold process_compile_state_replaced_entities.
  rewrite Hown. by destruct (option_base opt).
Qed.

(** ** Comparators *)

(** X18: adapting a comparator keeps its class and property; adapting to
    an entity makes that entity the parent entity and the adapter, whatever
    adaptation came before; adapting an adapted comparator to nothing
    clears the adapter but keeps the entity it was adapted to as parent
    entity, not the mapper it started from. *)
Theorem adapt_to_entity_composes (c : PropComparator)
    (before : option entity) (aliased : entity) :
  PropComparator.adapt_to_entity (PropComparator.adapt_to_entity c before)
    (Some aliased)
  = {| comparator_class := comparator_class c; prop := prop c;
       property := prop c; _parententity := aliased;
       _adapt_to_entity := Some aliased |}
  ∧ PropComparator.adapter
      (PropComparator.adapt_to_entity c (Some aliased)) = Some aliased
  ∧ PropComparator.adapt_to_entity
      (PropComparator.adapt_to_entity c (Some aliased)) None
    = {| comparator_class := comparator_class c; prop := prop c;
         property := prop c; _parententity := aliased;
         _adapt_to_entity := None |}.
Proof. done. Qed.

(** ** Tokens *)

Lemma string_app_length (a b : string) :
  String.length (a +:+ b) = String.length a + String.length b.
Proof.
  induction a as [|c a IH]; [done|].
  change (S (String.length (a +:+ b)) = S (String.length a + String.length b)).
  by rewrite IH.
Qed.

Lemma string_app_inj_r (a b t : string) : a +:+ t = b +:+ t → a = b.
Proof.
  revert b. induction a as [|c a IH]; intros [|c' b] Heq.
  - done.
  - apply (f_equal String.length) in Heq.
    rewrite !string_app_length in Heq. simpl in Heq. lia.
  - apply (f_equal String.length) in Heq.
    rewrite !string_app_length in Heq. simpl in Heq. lia.
  - change (String c (a +:+ t) = String c' (b +:+ t)) in Heq.
    injection Heq as -> Heq. f_equal. by apply IH.
Qed.

(** X19: two property types have the same default loader key, and the same
    wildcard token, exactly when their [strategy_wildcard_key] is formatted
    to the same string; so types with different string keys never share
    one, while the key [None] of [StrategizedProperty] is that of a type
    whose key is the string "None". *)
Theorem wildcard_keys_injective (_WILDCARD_TOKEN _DEFAULT_TOKEN : string)
    (key1 key2 : option string) :
  (_memoized_attr__default_path_loader_key _DEFAULT_TOKEN key1
     = _memoized_attr__default_path_loader_key _DEFAULT_TOKEN key2
   ↔ format_wildcard_key key1 = format_wildcard_key key2)
  ∧ (_memoized_attr__wildcard_token _WILDCARD_TOKEN key1
       = _memoized_attr__wildcard_token _WILDCARD_TOKEN key2
     ↔ format_wildcard_key key1 = format_wildcard_key key2)
  ∧ (∀ name1 name2,
       key1 = Some name1 → key2 = Some name2 →
       (_memoized_attr__default_path_loader_key _DEFAULT_TOKEN key1
          = _memoized_attr__default_path_loader_key _DEFAULT_TOKEN key2
        ↔ name1 = name2)).
Proof.
  assert (∀ t, format_wildcard_key key1 +:+ ":" +:+ t
               = format_wildcard_key key2 +:+ ":" +:+ t
               ↔ format_wildcard_key key1 = format_wildcard_key key2) as Hfmt.
  { intros t. split; [apply string_app_inj_r | by intros ->]. }
  unfold _memoized_attr__default_path_loader_key, _memoized_attr__wildcard_token.
  split; [|split].
  - rewrite <-(Hfmt _DEFAULT_TOKEN). split; [by intros [= ?] | by intros ->].
  - rewrite <-(Hfmt _WILDCARD_TOKEN). split; [by intros [= ?] | by intros ->].
  - intros name1 name2 -> ->. simpl.
    split; [intros [= ?]; by eapply string_app_inj_r | by intros ->].
Qed.

(** * The further properties at work on the example mapping *)

Lemma registration_order_irrelevant_witness :
  let kwA := [("lazy", VStr "select")] in
  let kwB := [("instrument", VBool true); ("deferred", VBool false)] in
  let a_then_b :=
    (StrategizedProperty.strategy_for "ColumnProperty" kwB "ColumnLoader"
       (StrategizedProperty.strategy_for "RelationshipProperty" kwA "LazyLoader"
          empty_state).2).2 in
  let b_then_a :=
    (StrategizedProperty.strategy_for "RelationshipProperty" kwA "LazyLoader"
       (StrategizedProperty.strategy_for "ColumnProperty" kwB "ColumnLoader"
          empty_state).2).2 in
  ("RelationshipProperty", sorted_items kwA) ≠ ("ColumnProperty", sorted_items kwB)
  ∧ StrategizedProperty._strategy_lookup RelationshipProperty addresses lazy_select
      (_all_strategies a_then_b) = Ok "LazyLoader"
  ∧ StrategizedProperty._strategy_lookup RelationshipProperty addresses lazy_select
      (_all_strategies b_then_a) = Ok "LazyLoader".
Proof.
  intros kwA kwB a_then_b b_then_a.
  assert (("RelationshipProperty", sorted_items kwA)
          ≠ ("ColumnProperty", sorted_items kwB)) as Hne by discriminate.
  assert (StrategizedProperty._strategy_lookup RelationshipProperty addresses
            lazy_select (_all_strategies a_then_b) = Ok "LazyLoader") as Hab
    by (vm_compute; reflexivity).
  split; [exact Hne|]. split; [exact Hab|].
  exact (proj1 (registration_order_irrelevant "RelationshipProperty"
                  "ColumnProperty" kwA kwB "LazyLoader" "ColumnLoader"
                  empty_state RelationshipProperty addresses lazy_select
                  "LazyLoader" Hne) Hab).
Defined.

Lemma unsorted_key_never_found_witness :
  let k := [("instrument", VBool true); ("deferred", VBool false)] in
  _all_strategies empty_state = []
  ∧ is_Some (parent name_column)
  ∧ ¬ Sorted item_le k
  ∧ StrategizedProperty._strategy_lookup ColumnProperty name_column k
      (_all_strategies (run_ops registrations empty_state))
    = Raise (LoaderStrategyException "ColumnProperty" 8 None None k).
Proof.
  intros k.
  assert (is_Some (parent name_column)) as Hparent by (by eexists).
  assert (¬ Sorted item_le k) as Hunsorted.
  { intros Hsorted. apply Sorted_inv in Hsorted as [_ Hhd].
    apply HdRel_inv in Hhd. discriminate Hhd. }
  split; [reflexivity|]. split; [exact Hparent|]. split; [exact Hunsorted|].
  exact (unsorted_key_never_found registrations empty_state ColumnProperty
           name_column k eq_refl Hparent Hunsorted).
Defined.

Lemma strategy_keys_recorded_witness :
  _all_strategies empty_state = []
  ∧ registered_for (_all_strategies (run_ops registrations empty_state))
      "RelationshipProperty" lazy_true = Some "LazyLoader"
  ∧ ∃ keys,
      dict_get (_strategy_keys (run_ops registrations empty_state)) "LazyLoader"
        = Some keys
      ∧ lazy_true ∈ keys.
Proof.
  assert (registered_for (_all_strategies (run_ops registrations empty_state))
            "RelationshipProperty" lazy_true = Some "LazyLoader") as Hreg
    by (vm_compute; reflexivity).
  split; [reflexivity|]. split; [exact Hreg|].
  exact (strategy_keys_recorded registrations empty_state "RelationshipProperty"
           lazy_true "LazyLoader" eq_refl Hreg).
Defined.


Lemma get_strategy_failure_witness :
  let e := LoaderStrategyException "RelationshipProperty" 7
             (Some "ColumnProperty") (Some "ColumnLoader") column_key in
  StrategizedProperty._get_strategy column_key configured = (Raise e, configured)
  ∧ ∀ a, ¬ cached configured column_key a.
Proof.
  intros e.
  assert (StrategizedProperty._get_strategy column_key configured
          = (Raise e, configured)) as Hrun by (vm_compute; reflexivity).
  split; [exact Hrun|].
  exact (proj1 (proj2 (get_strategy_failure column_key configured configured e Hrun))).
Defined.

Lemma init_configures_witness :
  parent (self registered) = Some user_mapper
  ∧ key (self registered) = Some "addresses"
  ∧ StrategizedProperty.mro_lookup (_all_strategies registered)
      (__mro__ (prop_class (self registered))) (strategy_key (self registered))
    = Some "LazyLoader"
  ∧ ∃ a s', StrategizedProperty.init registered = (Ok tt, s')
            ∧ strategy (self s') = Some a.
Proof.
  assert (parent (self registered) = Some user_mapper) as Hparent
    by (vm_compute; reflexivity).
  assert (key (self registered) = Some "addresses") as Hkey
    by (vm_compute; reflexivity).
  assert (StrategizedProperty.mro_lookup (_all_strategies registered)
            (__mro__ (prop_class (self registered)))
            (strategy_key (self registered)) = Some "LazyLoader") as Hmro
    by (vm_compute; reflexivity).
  split; [exact Hparent|]. split; [exact Hkey|]. split; [exact Hmro|].
  destruct (init_configures registered user_mapper "addresses" "LazyLoader"
              Hparent Hkey Hmro) as (a & s' & Hinit & _ & Hstrat & _).
  exists a, s'. split; [exact Hinit | exact Hstrat].
Defined.

Lemma init_unregistered_default_witness :
  parent (self empty_state) = Some user_mapper
  ∧ Forall (fun c => registered_for (_all_strategies empty_state) c
                       (strategy_key (self empty_state)) = None)
      (__mro__ (prop_class (self empty_state)))
  ∧ ∃ e s', StrategizedProperty.init empty_state = (Raise e, s')
            ∧ flags s' = (true, false)
            ∧ _strategies (self s') = Some [].
Proof.
  assert (Forall (fun c => registered_for (_all_strategies empty_state) c
                             (strategy_key (self empty_state)) = None)
            (__mro__ (prop_class (self empty_state)))) as Hnone
    by (repeat constructor).
  split; [reflexivity|]. split; [exact Hnone|].
  destruct (init_unregistered_default empty_state user_mapper eq_refl Hnone)
    as (applies_to & actual & s' & Hinit & Hstarted & Hfinished & Hcache & _).
  eexists _, s'. split; [exact Hinit|]. split; [|exact Hcache].
  unfold flags. rewrite Hstarted, Hfinished. reflexivity.
Defined.

Lemma default_key_served_by_default_witness :
  let ops := [op_get_strategy lazy_joined; op_post_instrument_class user_mapper] in
  StrategizedProperty.init registered = (Ok tt, configured)
  ∧ forallb query_time ops = true
  ∧ ∃ a, strategy (self (run_ops ops configured)) = Some a
         ∧ StrategizedProperty._get_strategy lazy_select (run_ops ops configured)
           = (Ok a, run_ops ops configured).
Proof.
  intros ops.
  assert (StrategizedProperty.init registered = (Ok tt, configured)) as Hinit
    by (vm_compute; reflexivity).
  split; [exact Hinit|]. split; [reflexivity|].
  exact (default_key_served_by_default registered configured ops Hinit eq_refl).
Defined.


Lemma strategyless_exact_option_shadows_witness :
  let opts :=
    [ (_wildcard_path_loader_key search_path, joined_option);
      (_loader_key search_path, defaultload_option) ] in
  dict_get opts (_loader_key search_path) = Some defaultload_option
  ∧ load_strategy defaultload_option = None
  ∧ strategy (self configured) = Some 0
  ∧ StrategizedProperty.setup (context_with opts) 2 path 9 [] configured
    = (Ok tt,
       add_call (setup_query_call 0 (context_with opts) 2 path
                   (Some defaultload_option) 9 []) configured).
Proof.
  intros opts.
  assert (dict_get opts (_loader_key search_path) = Some defaultload_option)
    as Hexact by (vm_compute; reflexivity).
  assert (strategy (self configured) = Some 0) as Hstrat
    by (vm_compute; reflexivity).
  split; [exact Hexact|]. split; [reflexivity|]. split; [exact Hstrat|].
  exact (strategyless_exact_option_shadows (context_with opts) 2 path 9 []
           configured defaultload_option 0 Hexact eq_refl Hstrat).
Defined.

Lemma setup_before_init_witness :
  _strategies (self registered) = None
  ∧ strategy (self registered) = None
  ∧ StrategizedProperty.setup (context_with []) 2 path 9 [] registered
    = (Raise (AttributeError "strategy"), registered).
Proof.
  assert (_strategies (self registered) = None) as Hcache
    by (vm_compute; reflexivity).
  assert (strategy (self registered) = None) as Hstrat
    by (vm_compute; reflexivity).
  split; [exact Hcache|]. split; [exact Hstrat|].
  exact (setup_before_init (context_with []) 2 path 9 [] registered Hcache Hstrat).
Defined.

Lemma setup_unregistered_option_witness :
  let misapplied :=
    {| load_id := 15; load_strategy := Some column_key; local_opts := [] |} in
  let context := context_with [(_loader_key search_path, misapplied)] in
  ∃ applies_to actual_strategy,
    StrategizedProperty.setup context 2 path 9 [] configured =
      (Raise (LoaderStrategyException "RelationshipProperty" 7
                applies_to actual_strategy column_key), configured).
Proof.
  intros misapplied context.
  assert (StrategizedProperty._get_context_loader (self configured) context path
          = Some misapplied) as Hload by (vm_compute; reflexivity).
  assert (column_key ≠ []) as Hne by discriminate.
  assert (_strategies (self configured) = Some [(lazy_select, 0)]) as Hd
    by (vm_compute; reflexivity).
  assert (parent (self configured) = Some user_mapper) as Hparent
    by (vm_compute; reflexivity).
  assert (Forall (fun c => registered_for (_all_strategies configured) c
                             column_key = None)
            (__mro__ (prop_class (self configured)))) as Hnone
    by (repeat constructor).
  exact (setup_unregistered_option context 2 path 9 [] configured misapplied
           column_key [(lazy_select, 0)] user_mapper Hload eq_refl Hne Hd
           eq_refl Hparent Hnone).
Defined.

Lemma strategy_opts_of_keywords_witness :
  let kw := [("instrument", VBool true); ("deferred", VBool false)] in
  NoDup kw.*1
  ∧ ∃ inst,
      LoaderStrategy.__init__ "ColumnLoader" name_column (sorted_items kw) = Ok inst
      ∧ dict_get (strategy_opts inst) "deferred" = Some (VBool false).
Proof.
  intros kw.
  assert (NoDup kw.*1) as Hnodup by (by apply (bool_decide_unpack _)).
  split; [exact Hnodup|].
  eexists. split; [reflexivity|].
  rewrite (strategy_opts_of_keywords "ColumnLoader" name_column kw _ "deferred"
             Hnodup eq_refl).
  reflexivity.
Defined.

Lemma replaced_entities_inert_witness :
  let criteria : OptionObject (list string) :=
    {| option_base := CriteriaOptionBase;
       own_process_compile_state := Some (fun cs => (Ok tt, "criteria" :: cs));
       own_process_compile_state_replaced_entities := None |} in
  option_base criteria ≠ LoaderOptionBase
  ∧ own_process_compile_state_replaced_entities criteria = None
  ∧ process_compile_state_replaced_entities criteria [4; 5] ["select"]
    = (Ok tt, ["select"])
  ∧ process_compile_state criteria ["select"] = (Ok tt, ["criteria"; "select"]).
Proof.
  intros criteria.
  assert (option_base criteria ≠ LoaderOptionBase) as Hbase by discriminate.
  split; [exact Hbase|]. split; [reflexivity|]. split; [|reflexivity].
  exact (replaced_entities_inert criteria [4; 5] ["select"] Hbase eq_refl).
Defined.
